(** * WIL enrollment reporting: cleaning pipeline and comparison tables

    A shallow embedding of
    - [backend/app/services/cleaning.py]      (class [DataCleaner]),
    - [backend/app/api/visualization.py]      (the merge step of [analyze_multi_file]),
    - [backend/app/services/visualization.py] (the three analysis tables of
      [WILReportAnalyzer] and its academic-level classifier),
    followed by the properties of these functions.

    Conventions of the embedding.
    - A pandas column is a list of cells; a missing value (NaN, <NA>) is [None].
    - Python exceptions are values of [result]; a [try: ... except Exception:]
      block is [try_except].
    - Python [float] is IEEE binary64, i.e. Rocq's primitive [float].
    - Text is [string] (a list of bytes); case mapping and white-space
      stripping are the ASCII ones.
    - Timestamps and console output are left out. *)

From Stdlib Require Import ZArith Floats Uint63 String Ascii.
From Stdlib Require Import DecimalString DecimalZ DecimalPos.
From stdpp Require Import base list gmap strings sorting.

(** ** Python-level primitives *)

Module Py.

Inductive exn : Set :=
| KeyError
| TypeError
| ValueError
| IndexError
| ZeroDivisionError.

Inductive result (A : Type) : Type :=
| Ok (a : A)
| Raise (e : exn).
Arguments Ok {A} a.
Arguments Raise {A} e.

Definition bind {A B} (m : result A) (k : A → result B) : result B :=
  match m with
  | Ok a => k a
  | Raise e => Raise e
  end.

(** [for x in xs: acc = body(acc, x)] where the body may raise. *)
Fixpoint for_each {A S} (xs : list A) (body : S → A → result S) (acc : S)
  : result S :=
  match xs with
  | [] => Ok acc
  | x :: xs' => bind (body acc x) (for_each xs' body)
  end.

(** [try: return body  except Exception: return {}]; the empty mapping is [None]. *)
Definition try_except {A} (body : result (option A)) : option A :=
  match body with
  | Ok r => r
  | Raise _ => None
  end.

(** [str(n)] for an integer. *)
Definition str (z : Z) : string := NilZero.string_of_int (Z.to_int z).

(** [pat in s] for strings. *)
Fixpoint contains (pat s : string) : bool :=
  String.prefix pat s ||
  match s with
  | EmptyString => false
  | String _ s' => contains pat s'
  end.

Definition startswith (pat s : string) : bool := String.prefix pat s.

Fixpoint rev_string_onto (s acc : string) : string :=
  match s with
  | EmptyString => acc
  | String c s' => rev_string_onto s' (String c acc)
  end.
Definition rev_string (s : string) : string := rev_string_onto s EmptyString.

Definition endswith (pat s : string) : bool :=
  String.prefix (rev_string pat) (rev_string s).

(** [c.upper()] on ASCII: only a-z change. *)
Definition upper_ascii (c : ascii) : ascii :=
  let n := nat_of_ascii c in
  if (97 <=? n)%nat && (n <=? 122)%nat then ascii_of_nat (n - 32) else c.

Fixpoint upper (s : string) : string :=
  match s with
  | EmptyString => EmptyString
  | String c s' => String (upper_ascii c) (upper s')
  end.

(** The ASCII characters for which [str.isspace] holds. *)
Definition isspace (c : ascii) : bool :=
  let n := nat_of_ascii c in
  ((9 <=? n)%nat && (n <=? 13)%nat) || ((28 <=? n)%nat && (n <=? 32)%nat).

Fixpoint lstrip (s : string) : string :=
  match s with
  | EmptyString => EmptyString
  | String c s' => if isspace c then lstrip s' else s
  end.

Definition strip (s : string) : string :=
  rev_string (lstrip (rev_string (lstrip s))).

(** *** Floats *)

(** [float(n)], exact below 2^53 in absolute value. *)
Definition float_of_int (z : Z) : float :=
  match z with
  | Z0 => PrimFloat.zero
  | Zpos _ => PrimFloat.of_uint63 (Uint63.of_Z z)
  | Zneg p => PrimFloat.opp (PrimFloat.of_uint63 (Uint63.of_Z (Zpos p)))
  end.

(** [a / b] on integers: true division, raising on a zero divisor. *)
Definition truediv (a b : Z) : result float :=
  if (b =? 0)%Z then Raise ZeroDivisionError
  else Ok (PrimFloat.div (float_of_int a) (float_of_int b)).

(** Nearest integer to [n * 2^e], ties to even. *)
Definition round_half_even_scaled (n e : Z) : Z :=
  if (0 <=? e)%Z then (n * 2 ^ e)%Z
  else
    let d := (2 ^ (- e))%Z in
    let q := (n / d)%Z in
    let r := (n mod d)%Z in
    if (2 * r <? d)%Z then q
    else if (d <? 2 * r)%Z then (q + 1)%Z
    else if Z.even q then q else (q + 1)%Z.

(** [f"{x:.1f}"]: the decimal with one fractional digit nearest to the
    exact binary value of [x], ties to even, the sign kept. *)
Definition format_1f (x : float) : string :=
  match Prim2SF x with
  | S754_zero s => if s then "-0.0" else "0.0"
  | S754_infinity s => if s then "-inf" else "inf"
  | S754_nan => "nan"
  | S754_finite s m e =>
      let t := round_half_even_scaled (10 * Zpos m) e in
      (if s then "-" else "") +:+ str (t / 10) +:+ "." +:+ str (t mod 10)
  end%string.

End Py.

(** ** pandas-level primitives on lists *)

Module Pd.

Section Dedup.
Context {A K : Type} `{EqDecision K}.
Variable key : A → K.

(** [df.duplicated(subset=...)], [keep='first']: a row is marked when a
    row with the same key stands before it. [seen] holds the keys met. *)
Fixpoint duplicated_from (seen : list K) (l : list A) : list bool :=
  match l with
  | [] => []
  | x :: l' =>
      bool_decide (key x ∈ seen) :: duplicated_from (key x :: seen) l'
  end.

Definition duplicated (l : list A) : list bool := duplicated_from [] l.

(** [mask.sum()]. *)
Definition mask_sum (m : list bool) : nat := length (filter (λ b, b = true) m).

(** [df[~mask]]. *)
Fixpoint drop_mask (m : list bool) (l : list A) : list A :=
  match m, l with
  | b :: m', x :: l' => if b then drop_mask m' l' else x :: drop_mask m' l'
  | _, _ => []
  end.

(** [df.drop_duplicates(subset=...)], [keep='first']. *)
Definition drop_duplicates (l : list A) : list A := drop_mask (duplicated l) l.
End Dedup.

(** [series.unique()]: the distinct values in order of first appearance. *)
Definition unique {A} `{EqDecision A} (l : list A) : list A :=
  drop_duplicates id l.

(** [series.nunique()]. *)
Definition nunique {A} `{EqDecision A} (l : list A) : nat := length (unique l).

End Pd.

(** ** services/cleaning.py *)

Module Cleaning.

(** A present cell value. Non-integral numbers are outside this model. *)
Inductive scalar : Set :=
| SInt (z : Z)
| SStr (s : string).

#[global] Instance scalar_eq_dec : EqDecision scalar.
Proof. solve_decision. Defined.

(** A cell: [None] is pandas' missing value. *)
Definition cell : Set := option scalar.

(** Rows are positional, aligned with [columns]. *)
Record DataFrame : Set := {
  columns : list string;
  rows : list (list cell)
}.

(** [df.shape]. *)
Definition shape (df : DataFrame) : nat * nat :=
  (length (rows df), length (columns df)).

(** [row[name]]. *)
Fixpoint cell_at (cols : list string) (row : list cell) (name : string) : cell :=
  match cols, row with
  | c :: cols', x :: row' =>
      if bool_decide (c = name) then x else cell_at cols' row' name
  | _, _ => None
  end.

(** [df[name]]. *)
Definition column (df : DataFrame) (name : string) : list cell :=
  (λ row, cell_at (columns df) row name) <$> rows df.

(** One row after [df[name] = f(df[name])] for a cell-wise [f]. *)
Fixpoint map_at (cols : list string) (name : string) (f : cell → cell)
    (row : list cell) : list cell :=
  match cols, row with
  | c :: cols', x :: row' =>
      (if bool_decide (c = name) then f x else x) :: map_at cols' name f row'
  | _, _ => row
  end.

Definition map_column (name : string) (f : cell → cell) (df : DataFrame)
  : DataFrame :=
  {| columns := columns df;
     rows := map_at (columns df) name f <$> rows df |}.

(** Cell-wise map of the whole frame, as [df.replace(a, b)]. *)
Definition map_cells (f : cell → cell) (df : DataFrame) : DataFrame :=
  {| columns := columns df; rows := fmap (M:=list) f <$> rows df |}.

(** [series.isnull().sum()]. *)
Definition isnull_sum (l : list cell) : nat :=
  length (filter (λ c, c = None) l).

(** [series.value_counts()]: each present value with its number of
    occurrences (listed here by first appearance). *)
Definition value_counts (l : list cell) : list (scalar * nat) :=
  (λ v, (v, length (filter (λ c, c = Some v) l)))
    <$> Pd.unique (omap id l).

(** *** The cleaner's state *)

(** What an f-string interpolates, in order. *)
Inductive piece : Set :=
| Lit (s : string)
| Num (n : Z)
| Vals (l : list scalar)
| Dist (l : list (scalar * nat))
| Pairs (l : list (scalar * nat)).

Record LogEntry : Set := {
  action : string;
  details : list piece
}.

Record QualityReport : Set := {
  missing_values_before : list (string * nat);
  distribution : list (string * list (scalar * nat))
}.

Record DataCleaner : Set := {
  cleaning_log : list LogEntry;
  quality_report : QualityReport;
  original_shape : option (nat * nat);
  cleaned_shape : option (nat * nat)
}.

(** [DataCleaner()]. *)
Definition init : DataCleaner :=
  {| cleaning_log := [];
     quality_report := {| missing_values_before := []; distribution := [] |};
     original_shape := None;
     cleaned_shape := None |}.

Definition integer_fields : list string :=
  ["ACADEMIC_YEAR"; "TERM"; "ACAD_PROG"; "COURSE_ID";
   "OFFER_NUMBER"; "CATALOG_NUMBER"; "MASKED_ID"]%string.

Definition categorical_expectations : list (string * list string) :=
  [("RESIDENCY_GROUP_DESCR", ["Local"; "International"]);
   ("FIRST_GENERATION_IND", ["First Generation"; "Non First Generation"]);
   ("ATSI_GROUP", ["Indigenous"; "Non Indigenous"]);
   ("SES", ["High"; "Medium"; "Low"; "Unknown"]);
   ("GENDER", ["M"; "F"; "U"]);
   ("CRSE_ATTR", ["WILC"])]%string.

Definition text_fields : list string :=
  ["FACULTY_DESCR"; "SCHOOL_NAME"; "COURSE_NAME";
   "TERM_DESCR"; "ACADEMIC_PROGRAM_DESCR"; "ATSI_DESC";
   "REGIONAL_REMOTE"; "ADMISSION_PATHWAY"; "COURSE_CODE"]%string.

(** [self.cleaning_log.append(...)] *)
Definition log_action (a : string) (d : list piece) (self : DataCleaner)
  : DataCleaner :=
  {| cleaning_log := cleaning_log self ++ [{| action := a; details := d |}];
     quality_report := quality_report self;
     original_shape := original_shape self;
     cleaned_shape := cleaned_shape self |}.

Definition set_quality_report (q : QualityReport) (self : DataCleaner)
  : DataCleaner :=
  {| cleaning_log := cleaning_log self;
     quality_report := q;
     original_shape := original_shape self;
     cleaned_shape := cleaned_shape self |}.

(** [read_data], from the frame the reader parsed: the shape is frozen. *)
Definition read_data (raw : DataFrame) (self : DataCleaner)
  : DataCleaner * DataFrame :=
  let self := log_action "Data Reading"
                [Lit "Successfully read file, shape: ";
                 Num (Z.of_nat (fst (shape raw))); Num (Z.of_nat (snd (shape raw)))]
                self in
  ({| cleaning_log := cleaning_log self;
      quality_report := quality_report self;
      original_shape := Some (shape raw);
      cleaned_shape := cleaned_shape self |}, raw).

(** [series.replace(a, np.nan)] on one cell. *)
Definition replace_with_nan (a : string) (c : cell) : cell :=
  if bool_decide (c = Some (SStr a)) then None else c.

Definition total_missing (df : DataFrame) : nat :=
  length (filter (λ c, c = None) (mjoin (rows df))).

Definition handle_missing_values (self : DataCleaner) (df : DataFrame)
  : DataCleaner * DataFrame :=
  let df := map_cells (replace_with_nan "") df in
  let df := map_cells (replace_with_nan " ") df in
  let missing_stats := (λ c, (c, isnull_sum (column df c))) <$> columns df in
  let self := set_quality_report
                {| missing_values_before := missing_stats;
                   distribution := distribution (quality_report self) |} self in
  let self := log_action "Missing Value Handling"
                [Lit "Converted empty strings to NaN, total missing: ";
                 Num (Z.of_nat (total_missing df))] self in
  (self, df).

Section Coercions.
(** pandas' parser of numeric text, on the integer results this model
    holds; [None] is a failed coercion. *)
Variable to_numeric : string → option Z.
(** The text pandas writes for a number under [astype(str)]. *)
Variable astype_str : Z → string.

Definition to_numeric_cell (c : cell) : cell :=
  match c with
  | None => None
  | Some (SInt z) => Some (SInt z)
  | Some (SStr s) => SInt <$> to_numeric s
  end.

Definition astype_str_cell (c : cell) : cell :=
  match c with
  | None => Some (SStr "nan")
  | Some (SInt z) => Some (SStr (astype_str z))
  | Some (SStr s) => Some (SStr s)
  end.

Definition convert_data_types (self : DataCleaner) (df : DataFrame)
  : DataCleaner * DataFrame :=
  let '(self, df) :=
    foldl (λ '(self, df) field,
             if bool_decide (field ∈ columns df) then
               (log_action "Data Type Conversion"
                  [Lit field; Lit " converted to integer type"] self,
                map_column field to_numeric_cell df)
             else (self, df))
          (self, df) integer_fields in
  let df :=
    foldl (λ df col,
             if bool_decide (col ∈ integer_fields) then df
             else map_column col
                    (λ c, replace_with_nan "nan" (astype_str_cell c)) df)
          df (columns df) in
  (self, df).

Definition strip_cell (c : cell) : cell :=
  match c with
  | Some (SStr s) => Some (SStr (Py.strip s))
  | _ => c
  end.

Definition clean_text_fields (self : DataCleaner) (df : DataFrame)
  : DataCleaner * DataFrame :=
  let df :=
    foldl (λ df field,
             if bool_decide (field ∈ columns df) then
               map_column field
                 (λ c, replace_with_nan "nan" (strip_cell (astype_str_cell c))) df
             else df)
          df text_fields in
  (log_action "Text Cleaning"
     [Lit "Cleaned ";
      Num (Z.of_nat (length (filter (λ f, f ∈ columns df) text_fields)));
      Lit " text fields"] self,
   df).
End Coercions.

(** [series.fillna(v)] on one cell. *)
Definition fillna (v : scalar) (c : cell) : cell :=
  match c with
  | None => Some v
  | Some _ => c
  end.

(** One iteration of the loop of [fill_missing_values]. *)
Definition fill_column (st : DataCleaner * DataFrame * nat) (col : string)
  : DataCleaner * DataFrame * nat :=
  let '(self, df, filled_count) := st in
  if bool_decide (col ∈ integer_fields) then
    let missing_before := isnull_sum (column df col) in
    let df := map_column col (fillna (SInt 0)) df in
    let self :=
      if bool_decide (0 < missing_before) then
        log_action "Missing Value Fill"
          [Lit col; Lit ": filled "; Num (Z.of_nat missing_before);
           Lit " missing values with 0"] self
      else self in
    (self, df, filled_count + missing_before)
  else
    let missing_before := isnull_sum (column df col) in
    let df := map_column col (fillna (SStr "Unknown")) df in
    let self :=
      if bool_decide (0 < missing_before) then
        log_action "Missing Value Fill"
          [Lit col; Lit ": filled "; Num (Z.of_nat missing_before);
           Lit " missing values with 'Unknown'"] self
      else self in
    (self, df, filled_count + missing_before).

Definition fill_missing_values (self : DataCleaner) (df : DataFrame)
  : DataCleaner * DataFrame :=
  let '(self, df, filled_count) := foldl fill_column (self, df, 0) (columns df) in
  (log_action "Missing Value Fill Complete"
     [Lit "Total filled: "; Num (Z.of_nat filled_count); Lit " missing values"]
     self,
   df).

(** [series.dropna().unique()]. *)
Definition dropna_unique (l : list cell) : list scalar := Pd.unique (omap id l).

Definition standardize_gender (self : DataCleaner) (df : DataFrame)
  : DataCleaner * DataFrame :=
  if bool_decide ("GENDER" ∈ columns df) then
    let gender_mapping := [SStr "U"; SStr "M"; SStr "F"] in
    let unique_genders := dropna_unique (column df "GENDER") in
    let unexpected_genders :=
      filter (λ g, g ∉ gender_mapping) unique_genders in
    let self :=
      if bool_decide (unexpected_genders ≠ []) then
        log_action "Gender Field Anomaly"
          [Lit "Found unexpected gender values: "; Vals unexpected_genders] self
      else self in
    (log_action "Gender Field Standardization"
       [Lit "Gender distribution: "; Dist (value_counts (column df "GENDER"))]
       self,
     df)
  else (self, df).

(** One iteration of the loop of [validate_categorical_variables]. *)
Definition validate_field (df : DataFrame)
    (st : list (list piece) * QualityReport) (fe : string * list string)
  : list (list piece) * QualityReport :=
  let '(validation_issues, q) := st in
  let '(field, expected_values) := fe in
  if bool_decide (field ∈ columns df) then
    let unique_values := dropna_unique (column df field) in
    let unexpected_values :=
      filter (λ v, v ∉ (SStr <$> expected_values)) unique_values in
    let validation_issues :=
      if bool_decide (unexpected_values ≠ []) then
        validation_issues ++
          [[Lit field; Lit ": Found unexpected values "; Vals unexpected_values]]
      else validation_issues in
    (validation_issues,
     {| missing_values_before := missing_values_before q;
        distribution :=
          distribution q ++ [(field, value_counts (column df field))] |})
  else st.

Definition validate_categorical_variables (self : DataCleaner) (df : DataFrame)
  : DataCleaner * DataFrame :=
  let '(validation_issues, q) :=
    foldl (validate_field df) ([], quality_report self) categorical_expectations in
  let self := set_quality_report q self in
  if bool_decide (validation_issues ≠ []) then
    (log_action "Categorical Variable Validation" (mjoin validation_issues) self, df)
  else
    (log_action "Categorical Variable Validation"
       [Lit "All categorical variables meet expectations"] self, df).

(** The business key of a row: student, term, course. *)
Definition business_key : list string := ["MASKED_ID"; "TERM"; "COURSE_CODE"]%string.

Definition subset_key (cols subset : list string) (row : list cell) : list cell :=
  (cell_at cols row) <$> subset.

Definition check_duplicates (self : DataCleaner) (df : DataFrame)
  : DataCleaner * DataFrame :=
  let duplicate_rows := Pd.mask_sum (Pd.duplicated id (rows df)) in
  let '(self, df) :=
    if bool_decide (0 < duplicate_rows) then
      (log_action "Duplicate Records"
         [Lit "Removed "; Num (Z.of_nat duplicate_rows);
          Lit " completely duplicate rows"] self,
       {| columns := columns df; rows := Pd.drop_duplicates id (rows df) |})
    else (self, df) in
  if bool_decide (Forall (λ col, col ∈ columns df) business_key) then
    let subset_duplicates :=
      Pd.mask_sum (Pd.duplicated (subset_key (columns df) business_key) (rows df)) in
    if bool_decide (0 < subset_duplicates) then
      (log_action "Business Duplicate Records"
         [Lit "Removed "; Num (Z.of_nat subset_duplicates);
          Lit " duplicate records for same student/term/course"] self,
       {| columns := columns df;
          rows := Pd.drop_duplicates
                    (subset_key (columns df) business_key) (rows df) |})
    else (self, df)
  else (self, df).

(** [row] without the cells of the columns called [name]. *)
Fixpoint drop_at (cols : list string) (name : string) (row : list cell)
  : list cell :=
  match cols, row with
  | c :: cols', x :: row' =>
      if bool_decide (c = name) then drop_at cols' name row'
      else x :: drop_at cols' name row'
  | _, _ => row
  end.

(** [df.drop(name, axis=1)]. *)
Definition drop_column (name : string) (df : DataFrame) : DataFrame :=
  {| columns := filter (λ c, c ≠ name) (columns df);
     rows := drop_at (columns df) name <$> rows df |}.

Section Consistency.
(** The findings of the four read-only consistency checks (code to
    description, course-code pattern, course attribute, catalog number),
    one detail text per finding. *)
Variable consistency_issues : DataFrame → list (list piece).

Definition check_data_consistency (self : DataCleaner) (df : DataFrame)
  : DataCleaner * DataFrame :=
  let issues := consistency_issues df in
  let df :=
    if bool_decide ("CATALOG_NUMBER" ∈ columns df)
       && bool_decide ("COURSE_CODE" ∈ columns df)
    then drop_column "extracted_number" df
    else df in
  if bool_decide (issues ≠ []) then
    (log_action "Data Consistency Check" (mjoin issues) self, df)
  else
    (log_action "Data Consistency Check"
       [Lit "Data consistency check passed"] self, df).
End Consistency.

(** The overview, missing-value and log sections of the text report. *)
Record Report : Set := {
  original_records : Z;
  cleaned_records : Z;
  removed_records : Z;
  number_of_fields : Z;
  missing_value_statistics : list (string * nat);
  operation_log : list LogEntry
}.

Definition generate_quality_report (self : DataCleaner) (df : DataFrame)
  : Py.result (DataCleaner * Report) :=
  let self :=
    {| cleaning_log := cleaning_log self;
       quality_report := quality_report self;
       original_shape := original_shape self;
       cleaned_shape := Some (shape df) |} in
  match original_shape self with
  | None => Py.Raise Py.TypeError
  | Some original =>
      let cleaned := shape df in
      Py.Ok (self,
             {| original_records := Z.of_nat (fst original);
                cleaned_records := Z.of_nat (fst cleaned);
                removed_records :=
                  (Z.of_nat (fst original) - Z.of_nat (fst cleaned))%Z;
                number_of_fields := Z.of_nat (snd cleaned);
                missing_value_statistics :=
                  filter (λ cm, 0 < snd cm)
                    ((λ c, (c, isnull_sum (column df c))) <$> columns df);
                operation_log := cleaning_log self |})
  end.

Definition save_cleaned_data (self : DataCleaner) (df : DataFrame)
  : Py.result (DataCleaner * Report) :=
  Py.bind (generate_quality_report self df) (λ '(self, report),
    let self := log_action "Data Saving" [Lit "Cleaned data saved"] self in
    let self := log_action "Report Saving" [Lit "Quality report saved"] self in
    Py.Ok (self, report)).

Section Pipeline.
Variable to_numeric : string → option Z.
Variable astype_str : Z → string.
Variable consistency_issues : DataFrame → list (list piece).

(** Steps 2 to 7 of [clean_data]: everything before the duplicate check. *)
Definition normalize (fill_missing : bool) (self : DataCleaner) (df : DataFrame)
  : DataCleaner * DataFrame :=
  let '(self, df) := handle_missing_values self df in
  let '(self, df) := convert_data_types to_numeric astype_str self df in
  let '(self, df) := clean_text_fields astype_str self df in
  let '(self, df) :=
    if fill_missing then fill_missing_values self df else (self, df) in
  let '(self, df) := standardize_gender self df in
  validate_categorical_variables self df.

(** [clean_data], from the frame read from the input file. *)
Definition clean_data (raw : DataFrame) (fill_missing : bool) (self : DataCleaner)
  : Py.result (DataCleaner * DataFrame * Report) :=
  let '(self, df) := read_data raw self in
  let '(self, df) := normalize fill_missing self df in
  let '(self, df) := check_duplicates self df in
  let '(self, df) := check_data_consistency consistency_issues self df in
  Py.bind (save_cleaned_data self df) (λ '(self, report),
    Py.Ok (self, df, report)).

(** [clean_wil_data]: a fresh cleaner per file. *)
Definition clean_wil_data (raw : DataFrame) (fill_missing : bool)
  : Py.result (DataCleaner * DataFrame * Report) :=
  clean_data raw fill_missing init.
End Pipeline.

End Cleaning.

(** ** api/visualization.py: the merge step of [analyze_multi_file] *)

Module Merge.
Import Cleaning.

(** [row] laid out on the columns [cols], missing cells where the frame
    has no such column. *)
Definition reindex (cols : list string) (df : DataFrame) : list (list cell) :=
  (λ row, cell_at (columns df) row <$> cols) <$> rows df.

(** [pd.concat(frames, ignore_index=True)]: the rows of the frames in
    order, on the union of their columns in order of first appearance. *)
Definition pd_concat (frames : list DataFrame) : Py.result DataFrame :=
  match frames with
  | [] => Py.Raise Py.ValueError
  | _ =>
      let cols := Pd.unique (mjoin (columns <$> frames)) in
      Py.Ok {| columns := cols; rows := mjoin (reindex cols <$> frames) |}
  end.

Definition merge_key : list string := ["MASKED_ID"; "ACADEMIC_YEAR"]%string.

(** The merged frame and the number the logger reports, if it reports. *)
Definition merge_dataframes (all_dataframes : list DataFrame)
  : Py.result (DataFrame * option Z) :=
  Py.bind (pd_concat all_dataframes) (λ merged_df,
    if bool_decide ("MASKED_ID" ∈ columns merged_df)
       && bool_decide ("ACADEMIC_YEAR" ∈ columns merged_df) then
      let initial_count := length (rows merged_df) in
      let merged_df :=
        {| columns := columns merged_df;
           rows := Pd.drop_duplicates
                     (subset_key (columns merged_df) merge_key) (rows merged_df) |} in
      let final_count := length (rows merged_df) in
      if bool_decide (initial_count ≠ final_count) then
        Py.Ok (merged_df, Some (Z.of_nat initial_count - Z.of_nat final_count)%Z)
      else Py.Ok (merged_df, None)
    else Py.Ok (merged_df, None)).

End Merge.

(** ** services/visualization.py: the analysis tables of [WILReportAnalyzer] *)

Module Visualization.
Import Py.

(** One record of the cleaned data the analyzer loads. The course code is
    the only field the table code tests for a missing value. *)
Record Enrollment : Set := {
  MASKED_ID : Z;
  ACADEMIC_YEAR : Z;
  TERM : Z;
  FACULTY_DESCR : string;
  COURSE_CODE : option string
}.

(** [self.data]: the columns the file has, and its records. The value of a
    field whose column is absent is never read. *)
Record DataFrame : Set := {
  columns : list string;
  records : list Enrollment
}.

Notation "'let*' x ':=' m 'in' k" := (bind m (λ x, k))
  (at level 10, x name, m at level 100, k at level 200).

(** [df[name]]. *)
Definition col {A} (df : DataFrame) (name : string) (field : Enrollment → A)
  : result (list A) :=
  if bool_decide (name ∈ columns df) then Ok (field <$> records df)
  else Raise KeyError.

(** [df[df[name] == v]]. *)
Definition where_eq {A} `{EqDecision A} (df : DataFrame) (name : string)
    (field : Enrollment → A) (v : A) : result DataFrame :=
  if bool_decide (name ∈ columns df) then
    Ok {| columns := columns df;
          records := filter (λ r, field r = v) (records df) |}
  else Raise KeyError.

Definition str_le (s t : string) : Prop := String.leb s t = true.

#[global] Instance str_le_dec : RelDecision str_le.
Proof. intros s t. unfold str_le. apply _. Defined.

(** [sorted(...)] on integers and on text. *)
Definition sorted (l : list Z) : list Z := merge_sort Z.le l.
Definition sorted_str (l : list string) : list string := merge_sort str_le l.

(** [l[i]], negative indices counting from the end. *)
Definition index {A} (l : list A) (i : Z) : result A :=
  let n := Z.of_nat (length l) in
  let j := if (i <? 0)%Z then (n + i)%Z else i in
  if (j <? 0)%Z then Raise IndexError
  else match l !! Z.to_nat j with
       | Some x => Ok x
       | None => Raise IndexError
       end.

(** [len(set(series.unique()))] and [series.nunique()] as integers. *)
Definition set_of (l : list Z) : gset Z := list_to_set (Pd.unique l).
Definition len (s : gset Z) : Z := Z.of_nat (size s).
Definition nunique (l : list Z) : Z := Z.of_nat (Pd.nunique l).

(** *** Percentage change *)

(** [pct = ((c2 - c1) / c1) * 100] then [f"{pct:.1f}%"]. *)
Definition percent (c1 c2 : Z) : result string :=
  let* q := truediv (c2 - c1) c1 in
  Ok (format_1f (PrimFloat.mul q (float_of_int 100)) +:+ "%")%string.

(** The [if / elif / else] block of the faculty, level and subtotal rows. *)
Definition pct_change_str (count_1 count_2 : Z) : result string :=
  if (0 <? count_1)%Z then percent count_1 count_2
  else if (0 <? count_2)%Z then Ok "New"%string
  else Ok "N/A"%string.

(** The [if / else] block of the Grand Total rows. *)
Definition total_pct_change_str (total_1 total_2 : Z) : result string :=
  if (0 <? total_1)%Z then percent total_1 total_2
  else Ok (if (0 <? total_2)%Z then "New" else "N/A")%string.

(** *** Tables *)

(** A row of tables 1 and 3: the label column, the two year columns and
    ['% Change']. *)
Record Row : Set := {
  label : string;
  count_1 : Z;
  count_2 : Z;
  pct_change : string
}.

Record Summary : Set := {
  year_1 : string;
  year_2 : string;
  total_change : Z;
  total_change_pct : string;
  levels_included : option (list string)
}.

Record ComparisonTable : Set := {
  title : string;
  headers : list string;
  rows : list Row;
  summary : Summary
}.

(** [df.groupby('FACULTY_DESCR')['MASKED_ID'].nunique()]: a series indexed
    by the faculties present. *)
Definition groupby_nunique (rs : list Enrollment) : gmap string Z :=
  list_to_map
    ((λ f, (f, nunique (MASKED_ID <$> filter (λ r, FACULTY_DESCR r = f) rs)))
       <$> Pd.unique (FACULTY_DESCR <$> rs)).

Definition groupby_faculty_nunique (df : DataFrame) : result (gmap string Z) :=
  if bool_decide ("FACULTY_DESCR" ∈ columns df) then
    if bool_decide ("MASKED_ID" ∈ columns df) then
      Ok (groupby_nunique (records df))
    else Raise KeyError
  else Raise KeyError.

(** The body of the faculty loop of table 1. *)
Definition enrollment_step (enrollment_year_1 enrollment_year_2 : gmap string Z)
    (st : list Row * Z * Z) (faculty : string) : result (list Row * Z * Z) :=
  let '(comparison_table, total_year_1, total_year_2) := st in
  let count_1 := default 0%Z (enrollment_year_1 !! faculty) in
  let count_2 := default 0%Z (enrollment_year_2 !! faculty) in
  let* pct := pct_change_str count_1 count_2 in
  Ok (comparison_table ++
        [{| label := faculty; count_1 := count_1; count_2 := count_2;
            pct_change := pct |}],
      (total_year_1 + count_1)%Z, (total_year_2 + count_2)%Z).

Definition enrollment_body (df : DataFrame) : result (option ComparisonTable) :=
  let* years := col df "ACADEMIC_YEAR" ACADEMIC_YEAR in
  let available_years := sorted (Pd.unique years) in
  if bool_decide (length available_years < 2) then Ok None
  else
    let* y1 := index available_years (-2) in
    let* y2 := index available_years (-1) in
    let* data_year_1 := where_eq df "ACADEMIC_YEAR" ACADEMIC_YEAR y1 in
    let* data_year_2 := where_eq df "ACADEMIC_YEAR" ACADEMIC_YEAR y2 in
    let* enrollment_year_1 := groupby_faculty_nunique data_year_1 in
    let* enrollment_year_2 := groupby_faculty_nunique data_year_2 in
    let all_faculties_in_data :=
      sorted_str (elements (dom enrollment_year_1 ∪ dom enrollment_year_2)) in
    let* st := for_each all_faculties_in_data
                 (enrollment_step enrollment_year_1 enrollment_year_2)
                 ([], 0%Z, 0%Z) in
    let '(comparison_table, total_year_1, total_year_2) := st in
    let* total_pct := total_pct_change_str total_year_1 total_year_2 in
    let comparison_table :=
      comparison_table ++
        [{| label := "Grand Total"; count_1 := total_year_1;
            count_2 := total_year_2; pct_change := total_pct |}] in
    Ok (Some
          {| title := "Table 1: Year Comparison with % Change";
             headers := ["Faculty"; str y1; str y2; "% Change"];
             rows := comparison_table;
             summary :=
               {| year_1 := str y1; year_2 := str y2;
                  total_change := (total_year_2 - total_year_1)%Z;
                  total_change_pct := total_pct;
                  levels_included := None |} |}).

Definition generate_wil_enrollment_comparison_table (df : DataFrame)
  : option ComparisonTable :=
  try_except (enrollment_body df).

(** *** Table 2: term breakdown *)

(** A Python [dict] with text keys, in insertion order. *)
Fixpoint dict_set {V} (k : string) (v : V) (d : list (string * V))
  : list (string * V) :=
  match d with
  | [] => [(k, v)]
  | (k', v') :: d' =>
      if bool_decide (k' = k) then (k, v) :: d'
      else (k', v') :: dict_set k v d'
  end.

Fixpoint dict_get {V} (k : string) (d : list (string * V)) : result V :=
  match d with
  | [] => Raise KeyError
  | (k', v') :: d' => if bool_decide (k' = k) then Ok v' else dict_get k d'
  end.

(** [f'{year} {term}']. *)
Definition column_name (year term : Z) : string :=
  (str year +:+ " " +:+ str term)%string.

(** A row of table 2: its two text cells and its count columns. *)
Record TermRow : Set := {
  Count_of_WIL_Enrolments : string;
  Term : string;
  term_counts : list (string * Z)
}.

Inductive header_cell : Set :=
| HText (s : string)
| HTerm (t : Z).

Record TermSummary : Set := {
  total_students : Z;
  total_faculties : nat;
  years_covered : list string;
  terms_included : list Z
}.

Record TermTable : Set := {
  term_title : string;
  term_headers : list string;
  level1 : list string;
  level2 : list header_cell;
  term_rows : list TermRow;
  term_summary : TermSummary
}.

(** The loop that names the columns and zeroes [grand_totals]. *)
Definition init_columns (years terms : list Z)
  : list string * list (string * Z) :=
  foldl (λ st year,
           foldl (λ '(term_columns, grand_totals) term,
                    (term_columns ++ [column_name year term],
                     dict_set (column_name year term) 0%Z grand_totals))
                 st terms)
        ([], []) years.

(** The innermost loop body: one (year, term) cell of a faculty row. *)
Definition term_cell (year_data : DataFrame) (year : Z)
    (st : list (string * Z) * list (string * Z)) (term_name : Z)
  : result (list (string * Z) * list (string * Z)) :=
  let '(row, grand_totals) := st in
  let* term_data := where_eq year_data "TERM" TERM term_name in
  let* ids := col term_data "MASKED_ID" MASKED_ID in
  let count := nunique ids in
  let* old := dict_get (column_name year term_name) grand_totals in
  Ok (dict_set (column_name year term_name) count row,
      dict_set (column_name year term_name) (old + count)%Z grand_totals).

Definition term_year (faculty_data : DataFrame) (terms : list Z)
    (st : list (string * Z) * list (string * Z)) (year : Z)
  : result (list (string * Z) * list (string * Z)) :=
  let* year_data := where_eq faculty_data "ACADEMIC_YEAR" ACADEMIC_YEAR year in
  for_each terms (term_cell year_data year) st.

(** The body of the faculty loop of table 2. *)
Definition term_faculty (df : DataFrame) (years terms : list Z)
    (st : list TermRow * list (string * Z)) (faculty : string)
  : result (list TermRow * list (string * Z)) :=
  let '(table_rows, grand_totals) := st in
  let* faculty_data := where_eq df "FACULTY_DESCR" FACULTY_DESCR faculty in
  let* st' := for_each years (term_year faculty_data terms) ([], grand_totals) in
  let '(row, grand_totals) := st' in
  Ok (table_rows ++
        [{| Count_of_WIL_Enrolments := ""; Term := faculty; term_counts := row |}],
      grand_totals).

Definition term_body (df : DataFrame) : result (option TermTable) :=
  if bool_decide ("TERM" ∉ columns df) then Ok None
  else
    let* years := col df "ACADEMIC_YEAR" ACADEMIC_YEAR in
    let available_years := sorted (Pd.unique years) in
    if bool_decide (length available_years < 2) then Ok None
    else
      let* y1 := index available_years (-2) in
      let* y2 := index available_years (-1) in
      let* faculties := col df "FACULTY_DESCR" FACULTY_DESCR in
      let all_faculties_in_data := sorted_str (Pd.unique faculties) in
      let* terms := col df "TERM" TERM in
      let available_terms := sorted (Pd.unique terms) in
      let '(term_columns, grand_totals) := init_columns [y1; y2] available_terms in
      let* st := for_each all_faculties_in_data
                   (term_faculty df [y1; y2] available_terms)
                   ([], grand_totals) in
      let '(table_rows, grand_totals) := st in
      let* grand_total_counts :=
        for_each term_columns
          (λ row c, let* v := dict_get c grand_totals in Ok (dict_set c v row))
          [] in
      let table_rows :=
        table_rows ++
          [{| Count_of_WIL_Enrolments := ""; Term := "Grand Total";
              term_counts := grand_total_counts |}] in
      Ok (Some
            {| term_title :=
                 "Table 2: Term Breakdown (" +:+ str y1 +:+ "-" +:+ str y2 +:+ ")";
               term_headers := ["Count of WIL Enrolments"; "Term"] ++ term_columns;
               level1 :=
                 ["Count of WIL Enrolments"; "Term"] ++
                 mjoin ((λ year, (λ _, str year) <$> available_terms) <$> [y1; y2]);
               level2 :=
                 [HText ""; HText ""] ++
                 mjoin ((λ _ : Z, HTerm <$> available_terms) <$> [y1; y2]);
               term_rows := table_rows;
               term_summary :=
                 {| total_students := foldr Z.add 0%Z (snd <$> grand_totals);
                    total_faculties :=
                      length (filter (λ r, Term r ≠ "Grand Total"%string) table_rows);
                    years_covered := [str y1; str y2];
                    terms_included := available_terms |} |})%string.

Definition generate_term_breakdown_table (df : DataFrame) : option TermTable :=
  try_except (term_body df).

(** *** The academic-level classifier *)

(** [any(pattern in s for pattern in patterns)]. *)
Definition any_in (patterns : list string) (s : string) : bool :=
  existsb (λ p, contains p s) patterns.

(** [determine_academic_level] of table 3; [None] is a missing code. *)
Definition determine_academic_level (course_code : option string) : string :=
  match course_code with
  | None => "Undergraduate"
  | Some raw =>
      let course_code := strip (upper raw) in
      if contains "NON-AWARD" course_code || any_in ["0000"; "00"] course_code
      then "Non-Award"
      else if contains "CDEV" course_code
      then "Undergraduate"
      else if any_in ["PHD"; "RESEARCH"; "RES"] course_code
              || (any_in ["80"; "90"] course_code && contains "RES" course_code)
      then "Research"
      else if any_in ["90"; "91"; "92"; "93"; "94"; "95"; "96"; "97"; "98"; "99"]
                course_code
              || any_in ["MAST"; "GRAD"; "PG"] course_code
      then "Postgraduate"
      else if any_in ["10"; "20"; "30"; "40"; "50"; "60"; "70"; "80"] course_code
              || any_in ["BACH"; "UG"; "DIP"] course_code
              || existsb (λ i, startswith (str i) course_code)
                   [1000; 2000; 3000; 4000; 5000; 6000; 7000; 8000]%Z
      then "Undergraduate"
      else "Undergraduate"
  end%string.

(** *** Table 3: academic-level demographics *)

(** The derived column [ACADEMIC_LEVEL] of [data_with_level]. *)
Definition ACADEMIC_LEVEL (r : Enrollment) : string :=
  determine_academic_level (COURSE_CODE r).

Definition preferred_level_order : list string :=
  ["Non-Award"; "Postgraduate"; "Undergraduate"; "Research"]%string.

(** [set(df[df['ACADEMIC_YEAR'] == year]['MASKED_ID'].unique())]. *)
Definition students_of_year (df : DataFrame) (year : Z) : result (gset Z) :=
  let* d := where_eq df "ACADEMIC_YEAR" ACADEMIC_YEAR year in
  let* ids := col d "MASKED_ID" MASKED_ID in
  Ok (set_of ids).

(** The body of the level loop inside a faculty. *)
Definition level_step (faculty_data : DataFrame) (y1 y2 : Z)
    (st : list Row * gset Z * gset Z) (level : string)
  : result (list Row * gset Z * gset Z) :=
  let '(table_rows, faculty_students_year_1, faculty_students_year_2) := st in
  let level_data :=
    {| columns := columns faculty_data;
       records := filter (λ r, ACADEMIC_LEVEL r = level) (records faculty_data) |} in
  let* level_students_year_1 := students_of_year level_data y1 in
  let* level_students_year_2 := students_of_year level_data y2 in
  let year_1_count := len level_students_year_1 in
  let year_2_count := len level_students_year_2 in
  let* table_rows :=
    if (0 <? year_1_count)%Z || (0 <? year_2_count)%Z then
      let* level_change_str := pct_change_str year_1_count year_2_count in
      Ok (table_rows ++
            [{| label := "    " +:+ level; count_1 := year_1_count;
                count_2 := year_2_count; pct_change := level_change_str |}])
    else Ok table_rows in
  Ok (table_rows,
      faculty_students_year_1 ∪ level_students_year_1,
      faculty_students_year_2 ∪ level_students_year_2).

(** The body of the faculty loop of table 3. *)
Definition faculty_step (df : DataFrame) (y1 y2 : Z) (ordered_levels : list string)
    (table_rows : list Row) (faculty : string) : result (list Row) :=
  let* faculty_data := where_eq df "FACULTY_DESCR" FACULTY_DESCR faculty in
  let* s1 := students_of_year faculty_data y1 in
  let* s2 := students_of_year faculty_data y2 in
  let faculty_year_1_total := len s1 in
  let faculty_year_2_total := len s2 in
  let* faculty_pct_change_str :=
    pct_change_str faculty_year_1_total faculty_year_2_total in
  let table_rows :=
    table_rows ++
      [{| label := faculty; count_1 := faculty_year_1_total;
          count_2 := faculty_year_2_total;
          pct_change := faculty_pct_change_str |}] in
  let* st := for_each ordered_levels (level_step faculty_data y1 y2)
               (table_rows, ∅, ∅) in
  let '(table_rows, faculty_students_year_1, faculty_students_year_2) := st in
  let faculty_total_year_1 := len faculty_students_year_1 in
  let faculty_total_year_2 := len faculty_students_year_2 in
  let* faculty_change_str :=
    pct_change_str faculty_total_year_1 faculty_total_year_2 in
  if (0 <? faculty_total_year_1)%Z || (0 <? faculty_total_year_2)%Z then
    Ok (table_rows ++
          [{| label := "  Total"; count_1 := faculty_total_year_1;
              count_2 := faculty_total_year_2;
              pct_change := faculty_change_str |}])
  else Ok table_rows.

Definition student_count_body (df : DataFrame) : result (option ComparisonTable) :=
  let* years := col df "ACADEMIC_YEAR" ACADEMIC_YEAR in
  let available_years := sorted (Pd.unique years) in
  if bool_decide (length available_years < 2) then Ok None
  else
    let* y1 := index available_years (-2) in
    let* y2 := index available_years (-1) in
    let* codes := col df "COURSE_CODE" COURSE_CODE in
    let data_with_level :=
      {| columns := columns df ++ ["ACADEMIC_LEVEL"]; records := records df |} in
    let* faculties := col data_with_level "FACULTY_DESCR" FACULTY_DESCR in
    let all_faculties_in_data := sorted_str (Pd.unique faculties) in
    let actual_levels := Pd.unique (determine_academic_level <$> codes) in
    let levels_with_data : gset string :=
      list_to_set
        (filter (λ level,
                   filter (λ r, ACADEMIC_LEVEL r = level) (records data_with_level)
                   ≠ [])
                actual_levels) in
    let ordered_levels :=
      filter (λ level, level ∈ levels_with_data) preferred_level_order ++
      sorted_str
        (filter (λ level, level ∉ preferred_level_order) (elements levels_with_data)) in
    let* year_1_students := students_of_year data_with_level y1 in
    let* year_2_students := students_of_year data_with_level y2 in
    let* table_rows :=
      for_each all_faculties_in_data
        (faculty_step data_with_level y1 y2 ordered_levels) [] in
    let grand_total_year_1 := len year_1_students in
    let grand_total_year_2 := len year_2_students in
    let* grand_change_str :=
      total_pct_change_str grand_total_year_1 grand_total_year_2 in
    let table_rows :=
      table_rows ++
        [{| label := "Grand Total"; count_1 := grand_total_year_1;
            count_2 := grand_total_year_2; pct_change := grand_change_str |}] in
    Ok (Some
          {| title :=
               "Table 3: Multi-Year Student Demographics Analysis ("
                 +:+ str y1 +:+ " vs " +:+ str y2 +:+ ")";
             headers :=
               ["Distinct Count of WIL Students"; str y1; str y2; "% Change"];
             rows := table_rows;
             summary :=
               {| year_1 := str y1; year_2 := str y2;
                  total_change := (grand_total_year_2 - grand_total_year_1)%Z;
                  total_change_pct := grand_change_str;
                  levels_included := Some ordered_levels |} |})%string.

Definition generate_distinct_student_count_table (df : DataFrame)
  : option ComparisonTable :=
  try_except (student_count_body df).

(** *** All tables *)






End Visualization.

(** ** services/visualization.py: the classifier of the level chart *)

Module TableVisualizations.
Import Py Visualization.

(** [determine_academic_level], the function local to
    [generate_table_visualizations] that labels the records for the chart
    of table 3; [None] is a missing code. *)
Definition determine_academic_level (course_code : option string) : string :=
  match course_code with
  | None => "Unknown"
  | Some raw =>
      let course_code := upper raw in
      if any_in ["90"; "91"; "92"; "93"; "94"; "95"; "96"; "97"; "98"; "99"]
           course_code
      then "Postgraduate"
      else if any_in ["10"; "20"; "30"; "40"; "50"; "60"; "70"; "80"] course_code
      then "Undergraduate"
      else if contains "RESEARCH" course_code || contains "PHD" course_code
      then "Research"
      else if contains "CDEV" course_code || any_in ["0000"; "00"] course_code
      then "Non-Award"
      else "Undergraduate"
  end%string.

End TableVisualizations.

(** ** services/visualization.py: the data of the key metrics *)

Module KeyMetrics.
Import Py Visualization.


End KeyMetrics.

(** * Properties *)

(** ** Duplicate removal on lists *)

Module PdFacts.
Import Pd.

Section Dedup.
Context {A K : Type} `{EqDecision K}.
Variable key : A → K.

(** Keeping the first row of every key, in the words of the
    specification: a row stays, and the later rows with its key go. *)
Fixpoint keep_first (l : list A) : list A :=
  match l with
  | [] => []
  | x :: l' => x :: filter (λ y, key y ≠ key x) (keep_first l')
  end.

Lemma length_duplicated_from seen l :
  length (duplicated_from key seen l) = length l.
Proof.
  revert seen. induction l as [|x l IH]; intros seen; simpl; [done|].
  by rewrite IH.
Qed.

Lemma mask_sum_cons b m :
  mask_sum (b :: m) = ((if b then 1 else 0) + mask_sum m)%nat.
Proof.
  unfold mask_sum. rewrite filter_cons. destruct b; simpl.
  - destruct (decide (true = true)); [done|congruence].
  - destruct (decide (false = true)); [congruence|done].
Qed.

Lemma length_drop_mask m (l : list A) :
  length m = length l →
  (length (drop_mask m l) + mask_sum m)%nat = length l.
Proof.
  revert l. induction m as [|b m IH]; intros [|x l] Hlen; simpl in *; try done.
  rewrite mask_sum_cons. specialize (IH l ltac:(lia)).
  destruct b; simpl; lia.
Qed.

(** The number [duplicated().sum()] reports is the number of rows
    [drop_duplicates] removes. *)
Lemma length_drop_duplicates l :
  (length (drop_duplicates key l) + mask_sum (duplicated key l))%nat = length l.
Proof. apply length_drop_mask, length_duplicated_from. Qed.

Lemma drop_mask_none m (l : list A) :
  length m = length l → mask_sum m = 0 → drop_mask m l = l.
Proof.
  revert l. induction m as [|b m IH]; intros [|x l] Hlen Hsum; simpl in *; try done.
  rewrite mask_sum_cons in Hsum. destruct b; [lia|].
  f_equal. apply IH; lia.
Qed.

(** Without a marked row, [drop_duplicates] changes nothing: the guard
    [if duplicate_rows > 0] only saves the call. *)
Lemma drop_duplicates_none l :
  mask_sum (duplicated key l) = 0 → drop_duplicates key l = l.
Proof. intros. apply drop_mask_none; [apply length_duplicated_from|done]. Qed.

Definition dedup_from (seen : list K) (l : list A) : list A :=
  drop_mask (duplicated_from key seen l) l.

Lemma dedup_from_cons seen x l :
  dedup_from seen (x :: l) =
    if bool_decide (key x ∈ seen) then dedup_from (key x :: seen) l
    else x :: dedup_from (key x :: seen) l.
Proof. done. Qed.

Lemma dedup_from_filter seen l :
  dedup_from seen l = filter (λ y, key y ∉ seen) (dedup_from [] l).
Proof.
  revert seen. induction l as [|x l IH]; intros seen; [done|].
  rewrite !dedup_from_cons.
  rewrite (bool_decide_eq_false_2 (key x ∈ [])) by apply not_elem_of_nil.
  rewrite filter_cons.
  rewrite (IH [key x]), (IH (key x :: seen)).
  rewrite list_filter_filter.
  assert (Hf : filter (λ y, key y ∉ (key x :: seen)) (dedup_from [] l)
             = filter (λ y, (key y ∉ seen) ∧ (key y ∉ [key x])) (dedup_from [] l)).
  { apply list_filter_iff. intros y.
    rewrite !not_elem_of_cons. pose proof (not_elem_of_nil (key y)). tauto. }
  rewrite Hf.
  case_bool_decide; destruct (decide (key x ∉ seen)); done.
Qed.

(** [drop_duplicates] keeps the first row of every key. *)
Lemma drop_duplicates_keep_first l : drop_duplicates key l = keep_first l.
Proof.
  change (drop_duplicates key l) with (dedup_from [] l).
  induction l as [|x l IH]; [done|].
  rewrite dedup_from_cons.
  rewrite (bool_decide_eq_false_2 (key x ∈ [])) by apply not_elem_of_nil.
  simpl. f_equal. rewrite dedup_from_filter, IH.
  apply list_filter_iff. intros y.
  rewrite not_elem_of_cons. pose proof (not_elem_of_nil (key y)). tauto.
Qed.

Lemma keep_first_sublist l : keep_first l `sublist_of` l.
Proof.
  induction l as [|x l IH]; simpl; [done|].
  apply sublist_skip. etrans; [apply sublist_filter|done].
Qed.

Lemma elem_of_keep_first_1 x l : x ∈ keep_first l → x ∈ l.
Proof. intros Hx. eapply elem_of_sublist; [done|apply keep_first_sublist]. Qed.

(** Every key of the input survives. *)
Lemma keep_first_covers x l :
  x ∈ l → ∃ y, y ∈ keep_first l ∧ key y = key x.
Proof.
  induction l as [|a l IH]; [by intros ?%elem_of_nil|].
  intros [->|Hx]%elem_of_cons; simpl.
  - exists a. split; [left|done].
  - destruct (IH Hx) as (y & Hy & Hk).
    destruct (decide (key y = key a)) as [Heq|Hne].
    + exists a. split; [left|congruence].
    + exists y. split; [|done]. right. apply list_elem_of_filter. done.
Qed.

(** No key is left twice. *)
Lemma keep_first_NoDup l : NoDup (key <$> keep_first l).
Proof.
  induction l as [|a l IH]; csimpl; [constructor|].
  constructor.
  - intros (y & Hy & Hin)%list_elem_of_fmap.
    apply list_elem_of_filter in Hin as [Hne _]. congruence.
  - eapply sublist_NoDup; [exact IH|].
    apply fmap_sublist, sublist_filter.
Qed.



End Dedup.

(** [unique] lists every value once. *)
Lemma unique_keep_first {A} `{EqDecision A} (l : list A) :
  unique l = keep_first id l.
Proof. apply drop_duplicates_keep_first. Qed.

Lemma NoDup_unique {A} `{EqDecision A} (l : list A) : NoDup (unique l).
Proof.
  rewrite unique_keep_first.
  pose proof (keep_first_NoDup id l) as Hnd. by rewrite list_fmap_id in Hnd.
Qed.

Lemma elem_of_unique {A} `{EqDecision A} (l : list A) x : x ∈ unique l ↔ x ∈ l.
Proof.
  rewrite unique_keep_first. split; [apply elem_of_keep_first_1|].
  intros Hx. destruct (keep_first_covers id x l Hx) as (y & Hy & Heq).
  simpl in Heq. by subst.
Qed.

(** [nunique] counts the distinct values. *)
Lemma nunique_size `{Countable A} (l : list A) :
  nunique l = size (list_to_set l : gset A).
Proof.
  unfold nunique. rewrite <- (size_list_to_set (C:=gset A)) by apply NoDup_unique.
  f_equal. apply set_eq. intros x.
  rewrite !elem_of_list_to_set. apply elem_of_unique.
Qed.
End PdFacts.

(** ** The cleaning pipeline *)

Module CleaningFacts.
Import Py Pd PdFacts Cleaning.


(** *** Stages before the duplicate check keep every row *)

Lemma rows_map_cells f df : length (rows (map_cells f df)) = length (rows df).
Proof. unfold map_cells; simpl. apply length_fmap. Qed.


Lemma columns_map_column name f df : columns (map_column name f df) = columns df.
Proof. done. Qed.










(** *** The duplicate check *)

(** The (student, term, course) triple of a row. *)
Definition student_term_course (cols : list string) (row : list cell)
  : cell * cell * cell :=
  (cell_at cols row "MASKED_ID", cell_at cols row "TERM",
   cell_at cols row "COURSE_CODE").

Lemma keep_first_ext {A K1 K2} `{EqDecision K1, EqDecision K2}
    (k1 : A → K1) (k2 : A → K2) (l : list A) :
  (∀ x y, k1 x = k1 y ↔ k2 x = k2 y) → keep_first k1 l = keep_first k2 l.
Proof.
  intros Hk. induction l as [|x l IH]; simpl; [done|].
  rewrite IH. f_equal. apply list_filter_iff. intros y. by rewrite Hk.
Qed.

Lemma subset_key_triple cols r1 r2 :
  subset_key cols business_key r1 = subset_key cols business_key r2
  ↔ student_term_course cols r1 = student_term_course cols r2.
Proof.
  unfold subset_key, business_key, student_term_course; simpl.
  split; intros Heq; congruence.
Qed.

Definition has_business_key (df : DataFrame) : Prop :=
  "MASKED_ID" ∈ columns df ∧ "TERM" ∈ columns df ∧ "COURSE_CODE" ∈ columns df.

Lemma Forall_business_key df :
  Forall (λ col, col ∈ columns df) business_key ↔ has_business_key df.
Proof.
  unfold business_key, has_business_key.
  rewrite !Forall_cons, Forall_nil. tauto.
Qed.

#[local] Instance has_business_key_dec df : Decision (has_business_key df).
Proof. unfold has_business_key. apply _. Defined.

(** The frame [check_duplicates] returns, pass by pass. *)
Definition exact_pass (df : DataFrame) : DataFrame :=
  {| columns := columns df; rows := keep_first id (rows df) |}.

Definition business_key_pass (df : DataFrame) : DataFrame :=
  if decide (has_business_key df) then
    {| columns := columns df;
       rows := keep_first (student_term_course (columns df)) (rows df) |}
  else df.

(** The numbers [check_duplicates] counts before each pass. *)
Definition exact_duplicates (df : DataFrame) : nat :=
  mask_sum (duplicated id (rows df)).

Definition business_key_duplicates (df : DataFrame) : nat :=
  if decide (has_business_key df) then
    mask_sum (duplicated (subset_key (columns df) business_key) (rows df))
  else 0.

Lemma DataFrame_eq (d1 d2 : DataFrame) :
  columns d1 = columns d2 → rows d1 = rows d2 → d1 = d2.
Proof. destruct d1, d2; simpl; congruence. Qed.

Lemma exact_pass_none df :
  mask_sum (duplicated id (rows df)) = 0 → exact_pass df = df.
Proof.
  intros Hn. apply DataFrame_eq; [done|]. unfold exact_pass. cbn [rows].
  rewrite <- drop_duplicates_keep_first. by apply drop_duplicates_none.
Qed.

Lemma business_key_rows df :
  keep_first (student_term_course (columns df)) (rows df)
  = drop_duplicates (subset_key (columns df) business_key) (rows df).
Proof.
  rewrite drop_duplicates_keep_first. apply keep_first_ext.
  intros x y. symmetry. apply subset_key_triple.
Qed.

Lemma check_duplicates_frame self df :
  snd (check_duplicates self df) = business_key_pass (exact_pass df).
Proof.
  unfold check_duplicates.
  set (n1 := mask_sum (duplicated id (rows df))).
  assert (H1 : snd (if bool_decide (0 < n1)
                    then (log_action "Duplicate Records"
                            [Lit "Removed "; Num (Z.of_nat n1);
                             Lit " completely duplicate rows"] self,
                          {| columns := columns df;
                             rows := drop_duplicates id (rows df) |})
                    else (self, df)) = exact_pass df).
  { case_bool_decide as Hn; cbn [snd].
    - unfold exact_pass. by rewrite drop_duplicates_keep_first.
    - symmetry. apply exact_pass_none. fold n1. lia. }
  destruct (if bool_decide (0 < n1) then _ else _) as [self1 df1].
  cbn [snd] in H1. subst df1.
  generalize (exact_pass df). clear df n1. intros df.
  unfold business_key_pass.
  destruct (decide (has_business_key df)) as [Hk|Hk].
  - rewrite bool_decide_eq_true_2 by (by apply Forall_business_key).
    rewrite business_key_rows.
    case_bool_decide as Hn; cbn [snd]; [done|].
    apply DataFrame_eq; [done|]. cbn [rows].
    symmetry. apply drop_duplicates_none. lia.
  - rewrite bool_decide_eq_false_2; [done|].
    by rewrite Forall_business_key.
Qed.

(** C8. [check_duplicates] is two passes in a fixed order: the rows equal
    in every column go first, a first occurrence kept; then, only when the
    MASKED_ID, TERM and COURSE_CODE columns are all present, the rows
    sharing a (student, term, course) triple go, the first occurrence kept. *)
Theorem check_duplicates_two_passes (self : DataCleaner) (df : DataFrame) :
  let first_pass := keep_first id (rows df) in
  let out := snd (check_duplicates self df) in
  columns out = columns df ∧
  rows out =
    if decide ("MASKED_ID" ∈ columns df ∧ "TERM" ∈ columns df
               ∧ "COURSE_CODE" ∈ columns df)
    then keep_first (student_term_course (columns df)) first_pass
    else first_pass.
Proof.
  simpl. rewrite check_duplicates_frame. unfold business_key_pass.
  change (has_business_key (exact_pass df)) with
    ("MASKED_ID" ∈ columns df ∧ "TERM" ∈ columns df ∧ "COURSE_CODE" ∈ columns df).
  destruct (decide _); simpl; done.
Qed.

Lemma check_duplicates_count self df :
  (length (rows (snd (check_duplicates self df)))
   + exact_duplicates df + business_key_duplicates (exact_pass df))%nat
  = length (rows df).
Proof.
  rewrite check_duplicates_frame.
  unfold business_key_pass, business_key_duplicates, exact_duplicates.
  pose proof (length_drop_duplicates id (rows df)) as H1.
  rewrite drop_duplicates_keep_first in H1.
  destruct (decide (has_business_key (exact_pass df))); simpl; [|lia].
  pose proof (length_drop_duplicates (subset_key (columns df) business_key)
                (keep_first id (rows df))) as H2.
  rewrite drop_duplicates_keep_first in H2.
  rewrite (keep_first_ext _ (student_term_course (columns df))) in H2
    by (intros; apply subset_key_triple).
  lia.
Qed.

(** What the cleaner logs about removed rows. *)
Definition exact_entry (n : nat) : LogEntry :=
  {| action := "Duplicate Records";
     details := [Lit "Removed "; Num (Z.of_nat n);
                 Lit " completely duplicate rows"] |}.

Definition business_key_entry (n : nat) : LogEntry :=
  {| action := "Business Duplicate Records";
     details := [Lit "Removed "; Num (Z.of_nat n);
                 Lit " duplicate records for same student/term/course"] |}.

Definition first_step (self : DataCleaner) (df : DataFrame)
  : DataCleaner * DataFrame :=
  let duplicate_rows := mask_sum (duplicated id (rows df)) in
  if bool_decide (0 < duplicate_rows) then
    (log_action "Duplicate Records"
       [Lit "Removed "; Num (Z.of_nat duplicate_rows);
        Lit " completely duplicate rows"] self,
     {| columns := columns df; rows := drop_duplicates id (rows df) |})
  else (self, df).

Definition second_step (st : DataCleaner * DataFrame) : DataCleaner * DataFrame :=
  let '(self, df) := st in
  if bool_decide (Forall (λ col, col ∈ columns df) business_key) then
    let subset_duplicates :=
      mask_sum (duplicated (subset_key (columns df) business_key) (rows df)) in
    if bool_decide (0 < subset_duplicates) then
      (log_action "Business Duplicate Records"
         [Lit "Removed "; Num (Z.of_nat subset_duplicates);
          Lit " duplicate records for same student/term/course"] self,
       {| columns := columns df;
          rows := drop_duplicates
                    (subset_key (columns df) business_key) (rows df) |})
    else (self, df)
  else (self, df).

Lemma check_duplicates_steps self df :
  check_duplicates self df = second_step (first_step self df).
Proof. reflexivity. Qed.

Lemma first_step_spec self df :
  first_step self df
  = (if bool_decide (0 < exact_duplicates df)
     then log_action "Duplicate Records" (details (exact_entry (exact_duplicates df))) self
     else self,
     exact_pass df).
Proof.
  unfold first_step. fold (exact_duplicates df).
  case_bool_decide as Hn.
  - unfold exact_pass. by rewrite drop_duplicates_keep_first.
  - f_equal. symmetry. apply exact_pass_none. unfold exact_duplicates in Hn. lia.
Qed.

Lemma second_step_log self df :
  cleaning_log (fst (second_step (self, df)))
  = cleaning_log self
    ++ (if bool_decide (0 < business_key_duplicates df)
        then [business_key_entry (business_key_duplicates df)] else []).
Proof.
  unfold second_step, business_key_duplicates.
  destruct (decide (has_business_key df)) as [Hk|Hk].
  - rewrite bool_decide_eq_true_2 by (by apply Forall_business_key).
    cbv zeta. case_bool_decide; cbn [fst]; [done|by rewrite app_nil_r].
  - rewrite bool_decide_eq_false_2 by (by rewrite Forall_business_key).
    rewrite (bool_decide_eq_false_2 (0 < 0)) by lia. cbn [fst].
    by rewrite app_nil_r.
Qed.

Lemma check_duplicates_log self df :
  cleaning_log (fst (check_duplicates self df))
  = cleaning_log self
    ++ (if bool_decide (0 < exact_duplicates df)
        then [exact_entry (exact_duplicates df)] else [])
    ++ (if bool_decide (0 < business_key_duplicates (exact_pass df))
        then [business_key_entry (business_key_duplicates (exact_pass df))]
        else []).
Proof.
  rewrite check_duplicates_steps, first_step_spec, second_step_log.
  case_bool_decide; cbn [log_action cleaning_log].
  - by rewrite <- app_assoc.
  - done.
Qed.

(** *** The row counts of the report *)













(** *** The missing-value filler *)

(** Every row has one cell per column. *)
Definition well_formed (df : DataFrame) : Prop :=
  Forall (λ row, length row = length (columns df)) (rows df).

(** The value the filler writes in a column. *)
Definition fill_value (col : string) : scalar :=
  if bool_decide (col ∈ integer_fields) then SInt 0 else SStr "Unknown".

(** A row after the filler, in the words of the specification: an absent cell
    of an integer field becomes 0, any other absent cell "Unknown", and a
    present cell stays. *)
Fixpoint filled_row (cols : list string) (row : list cell) : list cell :=
  match cols, row with
  | c :: cols', x :: row' =>
      match x with
      | None => Some (fill_value c)
      | Some v => Some v
      end :: filled_row cols' row'
  | _, _ => row
  end.

(** The entry that closes every run of the filler. *)
Definition fill_complete (filled_count : nat) : LogEntry :=
  {| action := "Missing Value Fill Complete";
     details := [Lit "Total filled: "; Num (Z.of_nat filled_count);
                 Lit " missing values"] |}.

Fixpoint pos_map (g : string → cell → cell) (cols : list string) (row : list cell)
  : list cell :=
  match cols, row with
  | c :: cols', x :: row' => g c x :: pos_map g cols' row'
  | _, _ => row
  end.

Lemma map_at_pos_map cols name f row :
  map_at cols name f row
  = pos_map (λ c x, if bool_decide (c = name) then f x else x) cols row.
Proof.
  revert row. induction cols as [|c cols IH]; intros [|x row]; simpl; try done.
  by rewrite IH.
Qed.

Lemma pos_map_pos_map g h cols row :
  pos_map g cols (pos_map h cols row) = pos_map (λ c x, g c (h c x)) cols row.
Proof.
  revert row. induction cols as [|c cols IH]; intros [|x row]; simpl; try done.
  by rewrite IH.
Qed.

Lemma pos_map_ext g h cols row :
  (∀ c x, c ∈ cols → g c x = h c x) → pos_map g cols row = pos_map h cols row.
Proof.
  revert row. induction cols as [|c cols IH]; intros [|x row] Hgh; simpl; try done.
  rewrite Hgh by left. f_equal. apply IH. intros c' x' Hc. apply Hgh. by right.
Qed.

Lemma pos_map_id cols row : pos_map (λ _ x, x) cols row = row.
Proof.
  revert row. induction cols as [|c cols IH]; intros [|x row]; simpl; try done.
  by rewrite IH.
Qed.

Lemma filled_row_pos_map cols row :
  filled_row cols row = pos_map (λ c x, fillna (fill_value c) x) cols row.
Proof.
  revert row. induction cols as [|c cols IH]; intros [|x row]; simpl; try done.
  rewrite IH. by destruct x.
Qed.

(** The cell function after the columns [done] have been filled. *)
Definition filled_in (done : list string) (c : string) (x : cell) : cell :=
  if bool_decide (c ∈ done) then fillna (fill_value c) x else x.

Lemma fill_column_frame self df n col :
  snd (fst (fill_column (self, df, n) col))
  = map_column col (fillna (fill_value col)) df.
Proof.
  unfold fill_column, fill_value. case_bool_decide; simpl; done.
Qed.

Lemma fill_frame_step cols done col row :
  map_at cols col (fillna (fill_value col)) (pos_map (filled_in done) cols row)
  = pos_map (filled_in (done ++ [col])) cols row.
Proof.
  rewrite map_at_pos_map, pos_map_pos_map. apply pos_map_ext.
  intros c x _. unfold filled_in.
  destruct (decide (c = col)) as [->|Hc].
  - rewrite (bool_decide_eq_true_2 (col = col)) by done.
    rewrite (bool_decide_eq_true_2 (col ∈ done ++ [col]))
      by (apply elem_of_app; right; left).
    case_bool_decide; [|done]. by destruct x.
  - rewrite (bool_decide_eq_false_2 (c = col)) by done.
    destruct (decide (c ∈ done)) as [Hd|Hd].
    + rewrite !bool_decide_eq_true_2; [done|apply elem_of_app; by left|done].
    + rewrite !bool_decide_eq_false_2; [done| |done].
      intros [?|Hin%list_elem_of_singleton]%elem_of_app; done.
Qed.

Lemma fill_frame_fold (df0 : DataFrame) todo done self df n :
  columns df = columns df0 →
  rows df = pos_map (filled_in done) (columns df0) <$> rows df0 →
  let out := snd (fst (foldl fill_column (self, df, n) todo)) in
  columns out = columns df0 ∧
  rows out = pos_map (filled_in (done ++ todo)) (columns df0) <$> rows df0.
Proof.
  revert done self df n. induction todo as [|col todo IH];
    intros done self df n Hcols Hrows; cbn [foldl]; cbv zeta.
  - cbn [fst snd]. by rewrite app_nil_r.
  - pose proof (fill_column_frame self df n col) as Hstep.
    destruct (fill_column (self, df, n) col) as [[s' d'] n'].
    cbn [fst snd] in Hstep.
    specialize (IH (done ++ [col]) s' d' n').
    rewrite <- app_assoc in IH. apply IH; subst d'; [done|].
    unfold map_column; cbn [rows columns].
    rewrite Hcols, Hrows, <- list_fmap_compose.
    apply list_fmap_ext. intros i row _. apply fill_frame_step.
Qed.

(** The first pass: every row is filled as specified. *)
Lemma fill_missing_values_frame self df :
  columns (snd (fill_missing_values self df)) = columns df ∧
  rows (snd (fill_missing_values self df)) = filled_row (columns df) <$> rows df.
Proof.
  unfold fill_missing_values.
  pose proof (fill_frame_fold df (columns df) [] self df 0 eq_refl) as H.
  destruct (foldl fill_column (self, df, 0) (columns df)) as [[s d] n].
  simpl in *. destruct H as [Hc Hr].
  { symmetry. etrans; [|apply list_fmap_id].
    apply list_fmap_ext. intros i row _. etrans; [|apply pos_map_id].
    apply pos_map_ext. intros c x _. unfold filled_in.
    rewrite bool_decide_eq_false_2; [done|apply not_elem_of_nil]. }
  split; [done|]. rewrite Hr. apply list_fmap_ext. intros i row _.
  rewrite filled_row_pos_map. apply pos_map_ext. intros c x Hc'.
  unfold filled_in. by rewrite bool_decide_eq_true_2.
Qed.

Lemma filled_row_length cols row : length (filled_row cols row) = length row.
Proof.
  revert row. induction cols as [|c cols IH]; intros [|x row]; simpl; try done.
  by rewrite IH.
Qed.

Lemma filled_row_present cols row :
  length row = length cols → Forall is_Some (filled_row cols row).
Proof.
  revert row. induction cols as [|c cols IH]; intros [|x row] Hlen; simpl in *;
    try done.
  constructor; [by destruct x|]. apply IH. lia.
Qed.

(** After the first pass no cell is absent. *)
Lemma fill_missing_values_present self df :
  well_formed df →
  well_formed (snd (fill_missing_values self df)) ∧
  Forall (Forall is_Some) (rows (snd (fill_missing_values self df))).
Proof.
  intros Hwf. destruct (fill_missing_values_frame self df) as [Hc Hr].
  unfold well_formed in *. rewrite Hc, Hr, !Forall_fmap.
  split; (eapply Forall_impl; [exact Hwf|]); intros row Hlen; simpl.
  - by rewrite filled_row_length.
  - by apply filled_row_present.
Qed.

Lemma cell_at_present cols row col :
  col ∈ cols → length row = length cols → Forall is_Some row →
  is_Some (cell_at cols row col).
Proof.
  revert row. induction cols as [|c cols IH]; intros [|x row] Hin Hlen Hrow;
    simpl in *; try done.
  - by apply elem_of_nil in Hin.
  - apply Forall_cons in Hrow as [Hx Hrow].
    case_bool_decide as Hc; [done|].
    apply elem_of_cons in Hin as [->|Hin]; [done|].
    apply IH; [done|lia|done].
Qed.

Lemma isnull_sum_present df col :
  col ∈ columns df → well_formed df → Forall (Forall is_Some) (rows df) →
  isnull_sum (column df col) = 0.
Proof.
  intros Hin Hwf Hpres. unfold isnull_sum, column.
  assert (Hall : Forall (λ c : cell, c ≠ None)
                   ((λ row, cell_at (columns df) row col) <$> rows df)).
  { rewrite Forall_fmap. unfold well_formed in Hwf.
    rewrite Forall_forall in *. intros row Hrow; simpl.
    destruct (cell_at_present (columns df) row col Hin (Hwf _ Hrow) (Hpres _ Hrow))
      as [v ->]. done. }
  induction Hall as [|c l Hc Hl IH]; [done|].
  by rewrite filter_cons_False.
Qed.

Lemma map_at_present cols col v row :
  Forall is_Some row → map_at cols col (fillna v) row = row.
Proof.
  revert row. induction cols as [|c cols IH]; intros [|x row] Hrow; simpl; try done.
  apply Forall_cons in Hrow as [[w ->] Hrow]. rewrite IH by done.
  by case_bool_decide.
Qed.

Lemma fill_column_present self df n col :
  col ∈ columns df → well_formed df → Forall (Forall is_Some) (rows df) →
  fill_column (self, df, n) col = (self, df, n).
Proof.
  intros Hin Hwf Hpres. unfold fill_column.
  rewrite (isnull_sum_present df col Hin Hwf Hpres).
  assert (Hmap : ∀ v, map_column col (fillna v) df = df).
  { intros v. apply DataFrame_eq; [done|]. unfold map_column; simpl.
    etrans; [|apply list_fmap_id]. apply list_fmap_ext. intros i row Hrow.
    apply map_at_present. rewrite Forall_forall in Hpres.
    apply Hpres. by eapply list_elem_of_lookup_2. }
  rewrite !Hmap, Nat.add_0_r.
  rewrite (bool_decide_eq_false_2 (0 < 0)) by lia. by case_bool_decide.
Qed.

(** On a frame without absent cells the filler only logs its closing entry. *)
Lemma fill_missing_values_present_noop self df :
  well_formed df → Forall (Forall is_Some) (rows df) →
  fill_missing_values self df
  = (log_action "Missing Value Fill Complete"
       [Lit "Total filled: "; Num 0; Lit " missing values"] self, df).
Proof.
  intros Hwf Hpres. unfold fill_missing_values.
  assert (Hfold : ∀ todo, todo ⊆ columns df →
            foldl fill_column (self, df, 0) todo = (self, df, 0)).
  { induction todo as [|col todo IH]; intros Hsub; cbn [foldl]; [done|].
    rewrite fill_column_present; [|apply Hsub; left|done|done].
    apply IH. intros c Hc. apply Hsub. by right. }
  by rewrite Hfold.
Qed.

(** C7, as the code has it. On a frame with one cell per column, the first
    pass of [fill_missing_values] writes 0 in every absent cell of an integer
    field and "Unknown" in every other absent cell; a second pass changes no
    cell and logs exactly one entry, the closing "Total filled: 0". *)
Theorem fill_missing_values_second_pass (self : DataCleaner) (df : DataFrame) :
  well_formed df →
  let '(self1, df1) := fill_missing_values self df in
  let '(self2, df2) := fill_missing_values self1 df1 in
  columns df1 = columns df ∧
  rows df1 = filled_row (columns df) <$> rows df ∧
  Forall (Forall is_Some) (rows df1) ∧
  df2 = df1 ∧
  cleaning_log self2 = cleaning_log self1 ++ [fill_complete 0].
Proof.
  intros Hwf.
  pose proof (fill_missing_values_frame self df) as [Hc Hr].
  pose proof (fill_missing_values_present self df Hwf) as [Hwf1 Hp1].
  destruct (fill_missing_values self df) as [self1 df1]. simpl in *.
  rewrite (fill_missing_values_present_noop self1 df1 Hwf1 Hp1).
  done.
Qed.

Definition sample_frame : DataFrame :=
  {| columns := ["MASKED_ID"; "GENDER"];
     rows := [[Some (SInt 42); None]; [None; Some (SStr "F")]] |}.

Lemma fill_missing_values_second_pass_witness :
  let '(self1, df1) := fill_missing_values init sample_frame in
  let '(self2, df2) := fill_missing_values self1 df1 in
  columns df1 = columns sample_frame ∧
  rows df1 = filled_row (columns sample_frame) <$> rows sample_frame ∧
  Forall (Forall is_Some) (rows df1) ∧
  df2 = df1 ∧
  cleaning_log self2 = cleaning_log self1 ++ [fill_complete 0].
Proof.
  apply (fill_missing_values_second_pass init sample_frame).
  repeat constructor.
Defined.

(** C7, as the specification states it, fails: the second pass changes no
    cell, but it does log. *)
Lemma fill_missing_values_logs_again :
  well_formed sample_frame ∧
  let '(self1, df1) := fill_missing_values init sample_frame in
  let '(self2, df2) := fill_missing_values self1 df1 in
  df2 = df1 ∧ cleaning_log self2 ≠ cleaning_log self1.
Proof.
  split; [repeat constructor|].
  vm_compute. split; [reflexivity|discriminate].
Qed.

End CleaningFacts.

(** ** The multi-file merge *)

Module MergeFacts.
Import Py Pd PdFacts Cleaning CleaningFacts Merge.

(** The (student, academic year) pair of a row. *)
Definition student_year (cols : list string) (row : list cell) : cell * cell :=
  (cell_at cols row "MASKED_ID", cell_at cols row "ACADEMIC_YEAR").

Lemma subset_key_pair cols r1 r2 :
  subset_key cols merge_key r1 = subset_key cols merge_key r2
  ↔ student_year cols r1 = student_year cols r2.
Proof.
  unfold subset_key, merge_key, student_year. cbn [fmap list_fmap].
  split; intros Heq; congruence.
Qed.

(** The columns and the rows of the concatenation. *)
Definition merged_columns (frames : list DataFrame) : list string :=
  unique (mjoin (columns <$> frames)).

Definition concatenated_rows (frames : list DataFrame) : list (list cell) :=
  mjoin (reindex (merged_columns frames) <$> frames).

Lemma pd_concat_nonempty frames :
  frames ≠ [] →
  pd_concat frames
  = Ok {| columns := merged_columns frames; rows := concatenated_rows frames |}.
Proof. by destruct frames. Qed.


(** Frames on the same columns: the concatenation is the rows in order. *)
Lemma cell_at_reindex cols row :
  NoDup cols → length row = length cols → cell_at cols row <$> cols = row.
Proof.
  revert row. induction cols as [|c cols IH]; intros [|x row] Hnd Hlen;
    try done.
  apply NoDup_cons in Hnd as [Hc Hnd]. cbn [length] in Hlen.
  rewrite fmap_cons. cbn [cell_at].
  rewrite bool_decide_eq_true_2 by done. f_equal.
  etrans; [|apply (IH row Hnd); lia].
  apply list_fmap_ext. intros i c' Hc'. cbn [cell_at].
  rewrite bool_decide_eq_false_2; [done|].
  intros ->. apply Hc. by eapply list_elem_of_lookup_2.
Qed.

Lemma reindex_same df :
  NoDup (columns df) → well_formed df → reindex (columns df) df = rows df.
Proof.
  intros Hnd Hwf. unfold reindex. etrans; [|apply list_fmap_id].
  apply list_fmap_ext. intros i row Hrow. apply cell_at_reindex; [done|].
  unfold well_formed in Hwf. rewrite Forall_forall in Hwf.
  apply Hwf. by eapply list_elem_of_lookup_2.
Qed.

Lemma keep_first_app {A K} `{EqDecision K} (key : A → K) (l1 l2 : list A) :
  keep_first key (l1 ++ l2)
  = keep_first key l1 ++ filter (λ y, key y ∉ key <$> l1) (keep_first key l2).
Proof.
  induction l1 as [|x l1 IH]; cbn [app keep_first fmap list_fmap].
  - symmetry. induction (keep_first key l2) as [|a l IHl]; [done|].
    rewrite filter_cons_True by apply not_elem_of_nil. by rewrite IHl.
  - f_equal. rewrite IH, filter_app, list_filter_filter. f_equal.
    apply list_filter_iff. intros y. rewrite not_elem_of_cons. tauto.
Qed.

Lemma keep_first_id_NoDup {A} `{EqDecision A} (l : list A) :
  NoDup l → keep_first id l = l.
Proof.
  induction 1 as [|x l Hx Hnd IH]; cbn [keep_first]; [done|].
  rewrite IH. f_equal. clear IH Hnd.
  induction l as [|a l IHl]; [done|].
  apply not_elem_of_cons in Hx as [Hne Hx].
  rewrite filter_cons_True by (cbn; congruence). f_equal. by apply IHl.
Qed.

Lemma unique_repeated (cs : list string) (ls : list (list string)) :
  NoDup cs → Forall (λ l, l = cs) ls → ls ≠ [] → unique (mjoin ls) = cs.
Proof.
  intros Hnd Hall Hne. rewrite unique_keep_first.
  destruct Hall as [|l ls -> Hall]; [done|]. clear Hne.
  cbn [mjoin list_join]. rewrite keep_first_app, keep_first_id_NoDup by done.
  match goal with
  | |- cs ++ ?f = cs => assert (Hnil : f = []); [|by rewrite Hnil, app_nil_r]
  end.
  assert (Hin : ∀ y, y ∈ keep_first id (mjoin ls) → y ∈ id <$> cs).
  { intros y Hy%elem_of_keep_first_1. rewrite list_fmap_id.
    apply list_elem_of_join in Hy as (l & Hy & Hl).
    rewrite Forall_forall in Hall. by rewrite <- (Hall l Hl). }
  induction (keep_first id (mjoin ls)) as [|a l' IHl]; [done|].
  rewrite filter_cons_False; [|intros Ha; apply Ha, Hin; left].
  apply IHl. intros y Hy. apply Hin. by right.
Qed.

Lemma concatenated_rows_same (cs : list string) (frames : list DataFrame) :
  NoDup cs → frames ≠ [] →
  Forall (λ df, columns df = cs ∧ well_formed df) frames →
  merged_columns frames = cs ∧ concatenated_rows frames = mjoin (rows <$> frames).
Proof.
  intros Hnd Hne Hall.
  assert (Hcols : merged_columns frames = cs).
  { unfold merged_columns. apply unique_repeated; [done| |by destruct frames].
    rewrite Forall_fmap. eapply Forall_impl; [exact Hall|]. by intros df [? _]. }
  split; [done|]. unfold concatenated_rows. rewrite Hcols. f_equal.
  apply list_fmap_ext. intros i df Hdf.
  rewrite Forall_forall in Hall.
  destruct (Hall df) as [Hc Hwf]; [by eapply list_elem_of_lookup_2|].
  rewrite <- Hc. apply reindex_same; [by rewrite Hc|done].
Qed.

(** Scenario D: two files each with the row of student 42 in 2025. *)
Definition file_a : DataFrame :=
  {| columns := ["MASKED_ID"; "ACADEMIC_YEAR"; "FACULTY_DESCR"];
     rows := [[Some (SInt 42); Some (SInt 2025); Some (SStr "Science")];
              [Some (SInt 7); Some (SInt 2024); Some (SStr "Law")]] |}.

Definition file_b : DataFrame :=
  {| columns := ["MASKED_ID"; "ACADEMIC_YEAR"; "FACULTY_DESCR"];
     rows := [[Some (SInt 42); Some (SInt 2025); Some (SStr "Science")];
              [Some (SInt 8); Some (SInt 2025); Some (SStr "Law")]] |}.


Example merge_scenario_d :
  merge_dataframes [file_a; file_b]
  = Ok ({| columns := ["MASKED_ID"; "ACADEMIC_YEAR"; "FACULTY_DESCR"];
           rows := [[Some (SInt 42); Some (SInt 2025); Some (SStr "Science")];
                    [Some (SInt 7); Some (SInt 2024); Some (SStr "Law")];
                    [Some (SInt 8); Some (SInt 2025); Some (SStr "Law")]] |},
        Some 1%Z).
Proof. vm_compute. reflexivity. Qed.

End MergeFacts.

(** ** The analysis tables *)

Module VisualizationFacts.
Import Py Pd PdFacts Visualization.

(** *** The academic-level classifier *)

(** The text the rules look at: upper-cased, then stripped. *)
Definition normalized (raw : string) : string := strip (upper raw).

Lemma contains_mono (p q s : string) :
  (∀ t, String.prefix p t = true → String.prefix q t = true) →
  contains p s = true → contains q s = true.
Proof.
  intros Hpq. induction s as [|a s IH]; cbn [contains];
    rewrite !orb_true_iff; intros [H|H]; auto.
Qed.

Lemma prefix_cons (a b : ascii) (p t : string) :
  String.prefix (String a p) (String b t)
  = if ascii_dec a b then String.prefix p t else false.
Proof. reflexivity. Qed.

Lemma prefix_nil_r (a : ascii) (p : string) :
  String.prefix (String a p) EmptyString = false.
Proof. reflexivity. Qed.

Lemma prefix_0000_00 (t : string) :
  String.prefix "0000" t = true → String.prefix "00" t = true.
Proof.
  destruct t as [|a [|b t]]; rewrite ?prefix_cons, ?prefix_nil_r; try done.
  destruct (ascii_dec "0" a); [|done]. destruct (ascii_dec "0" b); [|done].
  intros _. by destruct t.
Qed.

Lemma contains_0000_00 (s : string) :
  contains "0000" s = true → contains "00" s = true.
Proof. apply contains_mono, prefix_0000_00. Qed.

Lemma any_in_0000_00 (s : string) :
  any_in ["0000"; "00"]%string s = contains "00" s.
Proof.
  unfold any_in. cbn [existsb]. rewrite orb_false_r.
  pose proof (contains_0000_00 s) as H.
  destruct (contains "0000" s), (contains "00" s); try done.
  by specialize (H eq_refl).
Qed.

(** C2, as the code has it. [determine_academic_level] answers 'Non-Award'
    exactly when the upper-cased, stripped code contains "NON-AWARD" or
    contains "00" at any place; a code without these that contains "CDEV" is
    'Undergraduate'; the first rule that matches wins. *)
Theorem determine_academic_level_first_rules (code : string) :
  let c := normalized code in
  (determine_academic_level (Some code) = "Non-Award"%string
   ↔ contains "NON-AWARD" c = true ∨ contains "00" c = true) ∧
  (contains "NON-AWARD" c = false ∧ contains "00" c = false
   ∧ contains "CDEV" c = true →
   determine_academic_level (Some code) = "Undergraduate"%string).
Proof.
  cbv zeta. unfold determine_academic_level. fold (normalized code).
  generalize (normalized code). intros c.
  rewrite any_in_0000_00.
  destruct (contains "NON-AWARD" c), (contains "00" c); cbn [orb].
  1-3: split; [split; auto|]; intros (? & ? & ?); discriminate.
  split.
  - split; [|intros [?|?]; discriminate].
    repeat match goal with
           | |- context [if ?b then _ else _] => destruct b
           end; discriminate.
  - intros (_ & _ & ->). reflexivity.
Qed.

Lemma determine_academic_level_first_rules_witness :
  determine_academic_level (Some "cdev3012"%string) = "Undergraduate"%string.
Proof.
  apply (proj2 (determine_academic_level_first_rules "cdev3012")).
  vm_compute. auto.
Defined.

(** C2, as the specification states it, fails: "ABCD1001" ends neither with
    "0000" nor with "00" and carries no marker, yet it is 'Non-Award'. *)
Lemma determine_academic_level_not_trailing :
  determine_academic_level (Some "ABCD1001"%string) = "Non-Award"%string ∧
  contains "NON-AWARD" (normalized "ABCD1001") = false ∧
  endswith "0000" (normalized "ABCD1001") = false ∧
  endswith "00" (normalized "ABCD1001") = false.
Proof. vm_compute. repeat split. Qed.

Example determine_academic_level_missing :
  determine_academic_level None = "Undergraduate"%string.
Proof. reflexivity. Qed.

(** *** Fewer than two years *)

(** The number of distinct academic years of the records. *)
Definition distinct_years (df : DataFrame) : nat :=
  size (list_to_set (ACADEMIC_YEAR <$> records df) : gset Z).

(** [available_years] of the table functions. *)
Definition available_years (df : DataFrame) : list Z :=
  sorted (unique (ACADEMIC_YEAR <$> records df)).

Lemma length_available_years df : length (available_years df) = distinct_years df.
Proof.
  unfold available_years, sorted, distinct_years.
  rewrite (Permutation_length (merge_sort_Permutation _ _)).
  apply nunique_size.
Qed.

Lemma col_present {A} df name (field : Enrollment → A) :
  name ∈ columns df → col df name field = Ok (field <$> records df).
Proof. intros H. unfold col. by rewrite bool_decide_eq_true_2. Qed.

Lemma col_absent {A} df name (field : Enrollment → A) :
  name ∉ columns df → col df name field = Raise KeyError.
Proof. intros H. unfold col. by rewrite bool_decide_eq_false_2. Qed.

Lemma enrollment_body_few_years df :
  distinct_years df < 2 → try_except (enrollment_body df) = None.
Proof.
  intros Hy. unfold enrollment_body.
  destruct (decide ("ACADEMIC_YEAR" ∈ columns df)) as [Hc|Hc].
  - rewrite col_present by done. cbn [bind].
    fold (available_years df). rewrite length_available_years.
    by rewrite bool_decide_eq_true_2.
  - by rewrite col_absent.
Qed.


Lemma student_count_body_few_years df :
  distinct_years df < 2 → try_except (student_count_body df) = None.
Proof.
  intros Hy. unfold student_count_body.
  destruct (decide ("ACADEMIC_YEAR" ∈ columns df)) as [Hc|Hc].
  - rewrite col_present by done. cbn [bind].
    fold (available_years df). rewrite length_available_years.
    by rewrite bool_decide_eq_true_2.
  - by rewrite col_absent.
Qed.


Definition all_columns : list string :=
  ["MASKED_ID"; "ACADEMIC_YEAR"; "TERM"; "FACULTY_DESCR"; "COURSE_CODE"].

Definition enrolled (id year term : Z) (faculty code : string) : Enrollment :=
  {| MASKED_ID := id; ACADEMIC_YEAR := year; TERM := term;
     FACULTY_DESCR := faculty; COURSE_CODE := Some code |}.



(** *** The two years compared *)

(** [y1] and [y2] are the two most recent academic years of the records. *)
Definition compared_years (df : DataFrame) (y1 y2 : Z) : Prop :=
  let years := ACADEMIC_YEAR <$> records df in
  y1 ∈ years ∧ y2 ∈ years ∧ (y1 < y2)%Z ∧
  ∀ y, y ∈ years → (y ≤ y1)%Z ∨ y = y2.

Lemma last_two {A} (l : list A) :
  2 ≤ length l → ∃ l' a b, l = l' ++ [a; b].
Proof.
  intros Hlen. destruct l as [|b l] using rev_ind; [simpl in Hlen; lia|].
  destruct l as [|a l] using rev_ind.
  - simpl in Hlen; lia.
  - exists l, a, b. by rewrite <- app_assoc.
Qed.

Lemma index_last_two {A} (l' : list A) a b :
  index (l' ++ [a; b]) (-2) = Ok a ∧ index (l' ++ [a; b]) (-1) = Ok b.
Proof.
  unfold index. rewrite length_app. cbn [length].
  assert (H2 : (-2 <? 0)%Z = true) by done.
  assert (H1 : (-1 <? 0)%Z = true) by done.
  rewrite H1, H2.
  rewrite !(proj2 (Z.ltb_ge _ _)) by lia.
  replace (Z.to_nat (Z.of_nat (length l' + 2) + -2)) with (length l' + 0) by lia.
  replace (Z.to_nat (Z.of_nat (length l' + 2) + -1)) with (length l' + 1) by lia.
  rewrite !lookup_app_r by lia.
  replace (length l' + 0 - length l') with 0 by lia.
  replace (length l' + 1 - length l') with 1 by lia.
  done.
Qed.

Lemma elem_of_available_years df y :
  y ∈ available_years df ↔ y ∈ ACADEMIC_YEAR <$> records df.
Proof.
  unfold available_years, sorted.
  rewrite (merge_sort_Permutation Z.le). apply elem_of_unique.
Qed.

(** With two years or more, the code compares the last two. *)
Lemma available_years_last_two df :
  2 ≤ distinct_years df →
  ∃ y1 y2, index (available_years df) (-2) = Ok y1 ∧
           index (available_years df) (-1) = Ok y2 ∧
           compared_years df y1 y2.
Proof.
  intros Hlen. rewrite <- length_available_years in Hlen.
  destruct (last_two _ Hlen) as (l' & y1 & y2 & Hl).
  exists y1, y2. rewrite Hl.
  destruct (index_last_two l' y1 y2) as [-> ->]. do 2 (split; [done|]).
  assert (Hsorted : StronglySorted Z.le (l' ++ [y1; y2])).
  { rewrite <- Hl. apply StronglySorted_merge_sort; apply _. }
  assert (Hnd : NoDup (l' ++ [y1; y2])).
  { rewrite <- Hl. unfold available_years, sorted.
    rewrite (merge_sort_Permutation Z.le). apply NoDup_unique. }
  assert (Hin : ∀ y, y ∈ ACADEMIC_YEAR <$> records df ↔ y ∈ l' ++ [y1; y2]).
  { intros y. by rewrite <- Hl, elem_of_available_years. }
  unfold compared_years. cbv zeta.
  split; [apply Hin, elem_of_app; right; left|].
  split; [apply Hin, elem_of_app; right; right; left|].
  apply NoDup_app in Hnd as (_ & Hdisj & Hnd2).
  apply NoDup_cons in Hnd2 as [Hne _].
  apply StronglySorted_app in Hsorted as (Hle & _ & Hs2).
  apply StronglySorted_inv in Hs2 as [_ Hs2].
  apply Forall_cons in Hs2 as [H12 _].
  split.
  - assert (y1 ≠ y2) by (intros ->; apply Hne; left). lia.
  - intros y Hy. apply Hin in Hy.
    apply elem_of_app in Hy as [Hy|Hy].
    + left. apply (Hle y y1 Hy). left.
    + apply elem_of_cons in Hy as [->|Hy]; [left; lia|].
      apply list_elem_of_singleton in Hy. by right.
Qed.


(** *** Percentage change *)

(** [((c2 - c1) / c1) * 100] to one decimal place with a trailing '%'. *)
Definition one_decimal_percent (c1 c2 : Z) : string :=
  (format_1f (PrimFloat.mul (PrimFloat.div (float_of_int (c2 - c1)) (float_of_int c1))
                (float_of_int 100)) +:+ "%")%string.

(** The '% Change' value in the words of the specification. *)
Definition sentinel_law (c1 c2 : Z) (s : string) : Prop :=
  ((0 < c1)%Z → s = one_decimal_percent c1 c2) ∧
  (c1 = 0%Z → (0 < c2)%Z → s = "New"%string) ∧
  (c1 = 0%Z → c2 = 0%Z → s = "N/A"%string).

(** The text both blocks of the code produce. *)
Definition pct_text (c1 c2 : Z) : string :=
  if (0 <? c1)%Z then one_decimal_percent c1 c2
  else if (0 <? c2)%Z then "New"%string else "N/A"%string.

Lemma percent_ok c1 c2 : c1 ≠ 0%Z → percent c1 c2 = Ok (one_decimal_percent c1 c2).
Proof.
  intros Hne. unfold percent, truediv.
  by rewrite (proj2 (Z.eqb_neq _ _) Hne).
Qed.

(** No division raises: the counts are tested first. *)
Lemma pct_change_str_ok c1 c2 : pct_change_str c1 c2 = Ok (pct_text c1 c2).
Proof.
  unfold pct_change_str, pct_text. destruct (0 <? c1)%Z eqn:H1.
  - apply percent_ok. apply Z.ltb_lt in H1. lia.
  - by destruct (0 <? c2)%Z.
Qed.

Lemma total_pct_change_str_ok c1 c2 :
  total_pct_change_str c1 c2 = Ok (pct_text c1 c2).
Proof.
  unfold total_pct_change_str, pct_text. destruct (0 <? c1)%Z eqn:H1.
  - apply percent_ok. apply Z.ltb_lt in H1. lia.
  - by destruct (0 <? c2)%Z.
Qed.

Lemma pct_text_law c1 c2 : sentinel_law c1 c2 (pct_text c1 c2).
Proof.
  unfold sentinel_law, pct_text. repeat split.
  - intros H. by rewrite (proj2 (Z.ltb_lt _ _) H).
  - intros -> H. cbn. by rewrite (proj2 (Z.ltb_lt _ _) H).
  - by intros -> ->.
Qed.

(** A row obeys the law on its own counts. *)
Definition row_law (r : Row) : Prop :=
  (0 ≤ count_1 r)%Z ∧ (0 ≤ count_2 r)%Z ∧
  sentinel_law (count_1 r) (count_2 r) (pct_change r).

(** *** Table 1: enrollment comparison *)

Definition records_of_year (df : DataFrame) (y : Z) : list Enrollment :=
  filter (λ r, ACADEMIC_YEAR r = y) (records df).



Definition sum_Z (l : list Z) : Z := foldr Z.add 0%Z l.

Lemma nunique_set (l : list Z) : nunique l = Z.of_nat (size (list_to_set l : gset Z)).
Proof. unfold nunique. by rewrite nunique_size. Qed.


Lemma groupby_nunique_lookup rs f :
  default 0%Z (groupby_nunique rs !! f)
  = Z.of_nat (size (list_to_set
                 (MASKED_ID <$> filter (λ r, FACULTY_DESCR r = f) rs) : gset Z)).
Proof.
  unfold groupby_nunique.
  match goal with
  | |- default 0%Z (list_to_map ?l0 !! f) = _ => set (l := l0)
  end.
  assert (Hfst : l.*1 = unique (FACULTY_DESCR <$> rs)).
  { unfold l. rewrite <- list_fmap_compose.
    etrans; [|apply list_fmap_id]. by apply list_fmap_ext. }
  destruct (decide (f ∈ FACULTY_DESCR <$> rs)) as [Hin|Hin].
  - assert (Hl : (list_to_map l : gmap string Z) !! f
                 = Some (nunique (MASKED_ID <$> filter (λ r, FACULTY_DESCR r = f) rs))).
    { apply elem_of_list_to_map; [rewrite Hfst; apply NoDup_unique|].
      apply list_elem_of_fmap. exists f. split; [done|]. by apply elem_of_unique. }
    rewrite Hl. cbn [default]. apply nunique_set.
  - assert (Hl : (list_to_map l : gmap string Z) !! f = None).
    { apply not_elem_of_list_to_map. rewrite Hfst. by rewrite elem_of_unique. }
    rewrite Hl. cbn [default].
    assert (Hnil : filter (λ r, FACULTY_DESCR r = f) rs = []).
    { clear l Hfst Hl. induction rs as [|r rs IH]; [done|].
      rewrite fmap_cons, not_elem_of_cons in Hin. destruct Hin as [Hne Hin].
      rewrite filter_cons_False by congruence. by apply IH. }
    by rewrite Hnil.
Qed.

Lemma dom_groupby_nunique rs :
  dom (groupby_nunique rs) = list_to_set (FACULTY_DESCR <$> rs).
Proof.
  unfold groupby_nunique. rewrite dom_list_to_map_L, <- list_fmap_compose.
  assert (Hid : fst ∘ (λ f, (f, nunique (MASKED_ID <$> filter (λ r, FACULTY_DESCR r = f) rs)))
                  <$> unique (FACULTY_DESCR <$> rs)
                = unique (FACULTY_DESCR <$> rs)).
  { etrans; [|apply list_fmap_id]. by apply list_fmap_ext. }
  rewrite Hid. apply set_eq. intros f. rewrite !elem_of_list_to_set.
  apply elem_of_unique.
Qed.

(** The row of a faculty, from the two series. *)
Definition enrollment_row (e1 e2 : gmap string Z) (faculty : string) : Row :=
  {| label := faculty;
     count_1 := default 0%Z (e1 !! faculty);
     count_2 := default 0%Z (e2 !! faculty);
     pct_change := pct_text (default 0%Z (e1 !! faculty)) (default 0%Z (e2 !! faculty)) |}.

Lemma for_each_enrollment e1 e2 fs acc t1 t2 :
  for_each fs (enrollment_step e1 e2) (acc, t1, t2)
  = Ok (acc ++ (enrollment_row e1 e2 <$> fs),
        (t1 + sum_Z (count_1 <$> (enrollment_row e1 e2 <$> fs)))%Z,
        (t2 + sum_Z (count_2 <$> (enrollment_row e1 e2 <$> fs)))%Z).
Proof.
  revert acc t1 t2. induction fs as [|f fs IH]; intros acc t1 t2.
  - cbn [for_each fmap list_fmap sum_Z foldr].
    by rewrite app_nil_r, !Z.add_0_r.
  - cbn [for_each]. unfold enrollment_step at 1.
    rewrite pct_change_str_ok. cbn [bind]. rewrite IH.
    rewrite !fmap_cons. cbn [sum_Z foldr]. fold (sum_Z).
    rewrite <- app_assoc. cbn [app count_1 count_2 enrollment_row].
    do 2 f_equal; [f_equal|]; unfold sum_Z; lia.
Qed.

(** The table the code builds for the years [y1] and [y2]. *)
Definition enrollment_faculties (df : DataFrame) (y1 y2 : Z) : list string :=
  sorted_str (elements (dom (groupby_nunique (records_of_year df y1))
                        ∪ dom (groupby_nunique (records_of_year df y2)))).

Definition enrollment_faculty_rows (df : DataFrame) (y1 y2 : Z) : list Row :=
  enrollment_row (groupby_nunique (records_of_year df y1))
                 (groupby_nunique (records_of_year df y2))
    <$> enrollment_faculties df y1 y2.

Definition enrollment_grand_total (df : DataFrame) (y1 y2 : Z) : Row :=
  let t1 := sum_Z (count_1 <$> enrollment_faculty_rows df y1 y2) in
  let t2 := sum_Z (count_2 <$> enrollment_faculty_rows df y1 y2) in
  {| label := "Grand Total"; count_1 := t1; count_2 := t2;
     pct_change := pct_text t1 t2 |}.

Definition enrollment_table (df : DataFrame) (y1 y2 : Z) : ComparisonTable :=
  let g := enrollment_grand_total df y1 y2 in
  {| title := "Table 1: Year Comparison with % Change";
     headers := ["Faculty"; str y1; str y2; "% Change"];
     rows := enrollment_faculty_rows df y1 y2 ++ [g];
     summary := {| year_1 := str y1; year_2 := str y2;
                   total_change := (count_2 g - count_1 g)%Z;
                   total_change_pct := pct_change g;
                   levels_included := None |} |}.

Lemma where_eq_year df y :
  "ACADEMIC_YEAR" ∈ columns df →
  where_eq df "ACADEMIC_YEAR" ACADEMIC_YEAR y
  = Ok {| columns := columns df; records := records_of_year df y |}.
Proof. intros H. unfold where_eq. by rewrite bool_decide_eq_true_2. Qed.

(** Either table 1 is the empty mapping, or it is [enrollment_table] for the
    two most recent years. *)
Lemma enrollment_cases df :
  generate_wil_enrollment_comparison_table df = None ∨
  ∃ y1 y2, compared_years df y1 y2 ∧
    "FACULTY_DESCR" ∈ columns df ∧ "MASKED_ID" ∈ columns df ∧
    "ACADEMIC_YEAR" ∈ columns df ∧
    generate_wil_enrollment_comparison_table df = Some (enrollment_table df y1 y2).
Proof.
  destruct (decide (distinct_years df < 2)) as [Hy|Hy];
    [left; by apply enrollment_body_few_years|].
  unfold generate_wil_enrollment_comparison_table, enrollment_body.
  destruct (decide ("ACADEMIC_YEAR" ∈ columns df)) as [Hc|Hc];
    [|left; by rewrite col_absent].
  rewrite col_present by done. cbn [bind].
  fold (available_years df). rewrite length_available_years.
  rewrite bool_decide_eq_false_2 by done.
  destruct (available_years_last_two df) as (y1 & y2 & -> & -> & Hyears); [lia|].
  cbn [bind]. rewrite !where_eq_year by done. cbn [bind].
  unfold groupby_faculty_nunique. cbn [columns records].
  destruct (decide ("FACULTY_DESCR" ∈ columns df)) as [Hf|Hf];
    [|left; by rewrite bool_decide_eq_false_2].
  rewrite bool_decide_eq_true_2 by done.
  destruct (decide ("MASKED_ID" ∈ columns df)) as [Hm|Hm];
    [|left; by rewrite bool_decide_eq_false_2].
  rewrite bool_decide_eq_true_2 by done. cbn [bind].
  rewrite for_each_enrollment. cbn [bind].
  rewrite total_pct_change_str_ok. cbn [bind try_except].
  right. exists y1, y2. do 4 (split; [done|]).
  unfold enrollment_table, enrollment_grand_total, enrollment_faculty_rows,
    enrollment_faculties.
  cbn [app count_1 count_2 pct_change]. rewrite !Z.add_0_l. done.
Qed.

(** The distinct students of a year, and the distinct (faculty, student)
    pairs of a year. *)
Definition distinct_students (df : DataFrame) (y : Z) : Z :=
  Z.of_nat (size (list_to_set (MASKED_ID <$> records_of_year df y) : gset Z)).

Definition faculty_student_pairs (df : DataFrame) (y : Z) : gset (string * Z) :=
  list_to_set ((λ r, (FACULTY_DESCR r, MASKED_ID r)) <$> records_of_year df y).

Lemma list_to_set_unique `{Countable A} (l : list A) :
  (list_to_set (unique l) : gset A) = list_to_set l.
Proof. apply set_eq. intros x. rewrite !elem_of_list_to_set. apply elem_of_unique. Qed.


Lemma list_to_set_fmap_unique `{Countable A, Countable B} (g : A → B) (l : list A) :
  (list_to_set (g <$> unique l) : gset B) = list_to_set (g <$> l).
Proof.
  apply set_eq. intros x. rewrite !elem_of_list_to_set, !list_elem_of_fmap.
  split; intros (y & -> & Hy); exists y; (split; [done|]); by apply elem_of_unique.
Qed.


Lemma size_image_inj `{Countable A, Countable B} (g : A → B) `{!Inj (=) (=) g}
    (l : list A) :
  size (list_to_set (g <$> l) : gset B) = size (list_to_set l : gset A).
Proof.
  rewrite <- list_to_set_fmap_unique.
  rewrite size_list_to_set by (apply NoDup_fmap_2; [done|apply NoDup_unique]).
  rewrite length_fmap. by rewrite <- nunique_size.
Qed.

Definition pair_of (r : Enrollment) : string * Z := (FACULTY_DESCR r, MASKED_ID r).

Lemma pairs_of_faculty (rs : list Enrollment) (f : string) :
  pair_of <$> filter (λ r, FACULTY_DESCR r = f) rs
  = pair f <$> (MASKED_ID <$> filter (λ r, FACULTY_DESCR r = f) rs).
Proof.
  rewrite <- list_fmap_compose. apply list_fmap_ext. intros i r Hr.
  apply list_elem_of_lookup_2, list_elem_of_filter in Hr as [<- _]. done.
Qed.

Lemma sum_Z_cons (x : Z) (l : list Z) : sum_Z (x :: l) = (x + sum_Z l)%Z.
Proof. reflexivity. Qed.

(** Summing the per-faculty counts counts the (faculty, student) pairs. *)
Lemma sum_faculty_counts (rs : list Enrollment) (F : list string) :
  NoDup F →
  sum_Z ((λ f, Z.of_nat (size (list_to_set
            (MASKED_ID <$> filter (λ r, FACULTY_DESCR r = f) rs) : gset Z))) <$> F)
  = Z.of_nat (size (list_to_set
       (pair_of <$> filter (λ r, FACULTY_DESCR r ∈ F) rs) : gset (string * Z))).
Proof.
  induction 1 as [|f F Hf Hnd IH].
  - cbn [fmap list_fmap sum_Z foldr].
    assert (Hnil : filter (λ r, FACULTY_DESCR r ∈ []) rs = []).
    { induction rs as [|r rs IHrs]; [done|].
      rewrite filter_cons_False by apply not_elem_of_nil. done. }
    by rewrite Hnil.
  - rewrite fmap_cons, sum_Z_cons, IH.
    rewrite <- (size_image_inj (pair f)), <- pairs_of_faculty.
    rewrite <- Nat2Z.inj_add, <- size_union.
    + do 2 f_equal. apply set_eq. intros [g s].
      rewrite elem_of_union, !elem_of_list_to_set, !list_elem_of_fmap.
      split.
      * intros [(r & Hr & Hin)|(r & Hr & Hin)];
          apply list_elem_of_filter in Hin as [HF Hin]; exists r;
          (split; [done|]); apply list_elem_of_filter; (split; [|done]).
        -- rewrite HF. left.
        -- by right.
      * intros (r & Hr & Hin). apply list_elem_of_filter in Hin as [HF Hin].
        apply elem_of_cons in HF as [HF|HF].
        -- left. exists r. split; [done|]. by apply list_elem_of_filter.
        -- right. exists r. split; [done|]. by apply list_elem_of_filter.
    + apply elem_of_disjoint. intros [g s].
      rewrite !elem_of_list_to_set, !list_elem_of_fmap.
      intros (r & Hr & Hin) (r' & Hr' & Hin').
      apply list_elem_of_filter in Hin as [HF _].
      apply list_elem_of_filter in Hin' as [HF' _].
      unfold pair_of in *. apply Hf. congruence.
Qed.

Lemma filter_all {A} (P : A → Prop) `{∀ x, Decision (P x)} (l : list A) :
  (∀ x, x ∈ l → P x) → filter P l = l.
Proof.
  induction l as [|a l IH]; intros Hall; [done|].
  rewrite filter_cons_True by (apply Hall; left).
  f_equal. apply IH. intros x Hx. apply Hall. by right.
Qed.

Lemma sorted_str_perm (l : list string) : sorted_str l ≡ₚ l.
Proof. apply merge_sort_Permutation. Qed.

Lemma elem_of_enrollment_faculties df y1 y2 f :
  f ∈ enrollment_faculties df y1 y2
  ↔ f ∈ FACULTY_DESCR <$> records_of_year df y1
    ∨ f ∈ FACULTY_DESCR <$> records_of_year df y2.
Proof.
  unfold enrollment_faculties. rewrite sorted_str_perm, elem_of_elements.
  rewrite elem_of_union, !dom_groupby_nunique, !elem_of_list_to_set. done.
Qed.

Lemma NoDup_enrollment_faculties df y1 y2 : NoDup (enrollment_faculties df y1 y2).
Proof.
  unfold enrollment_faculties. rewrite sorted_str_perm. apply NoDup_elements.
Qed.

Lemma sum_Z_perm (l1 l2 : list Z) : l1 ≡ₚ l2 → sum_Z l1 = sum_Z l2.
Proof.
  induction 1; rewrite ?sum_Z_cons; try done; lia.
Qed.



Lemma enrollment_sum_1 df y1 y2 :
  sum_Z (count_1 <$> enrollment_faculty_rows df y1 y2)
  = Z.of_nat (size (faculty_student_pairs df y1)).
Proof.
  unfold enrollment_faculty_rows. rewrite <- list_fmap_compose.
  etrans; [|etrans; [apply (sum_faculty_counts (records_of_year df y1)
                              (enrollment_faculties df y1 y2)),
                            NoDup_enrollment_faculties|]].
  - f_equal. apply list_fmap_ext. intros i f _. apply groupby_nunique_lookup.
  - unfold faculty_student_pairs. fold pair_of. rewrite filter_all; [done|].
    intros r Hr. apply elem_of_enrollment_faculties. left.
    apply list_elem_of_fmap. by exists r.
Qed.

Lemma enrollment_sum_2 df y1 y2 :
  sum_Z (count_2 <$> enrollment_faculty_rows df y1 y2)
  = Z.of_nat (size (faculty_student_pairs df y2)).
Proof.
  unfold enrollment_faculty_rows. rewrite <- list_fmap_compose.
  etrans; [|etrans; [apply (sum_faculty_counts (records_of_year df y2)
                              (enrollment_faculties df y1 y2)),
                            NoDup_enrollment_faculties|]].
  - f_equal. apply list_fmap_ext. intros i f _. apply groupby_nunique_lookup.
  - unfold faculty_student_pairs. fold pair_of. rewrite filter_all; [done|].
    intros r Hr. apply elem_of_enrollment_faculties. right.
    apply list_elem_of_fmap. by exists r.
Qed.



(** A student of two faculties in 2025: the Grand Total exceeds the number
    of distinct students. *)
Definition two_faculties : DataFrame :=
  {| columns := all_columns;
     records := [enrolled 1 2024 1 "X" "COMP1511"; enrolled 2 2024 1 "X" "COMP1511";
                 enrolled 1 2025 1 "X" "COMP1511"; enrolled 1 2025 2 "Y" "LAWS2371";
                 enrolled 3 2025 1 "X" "COMP1511"] |}.

Definition two_faculties_table : ComparisonTable :=
  {| title := "Table 1: Year Comparison with % Change";
     headers := ["Faculty"; "2024"; "2025"; "% Change"];
     rows := [{| label := "X"; count_1 := 2; count_2 := 2; pct_change := "0.0%" |};
              {| label := "Y"; count_1 := 0; count_2 := 1; pct_change := "New" |};
              {| label := "Grand Total"; count_1 := 2; count_2 := 3;
                 pct_change := "50.0%" |}];
     summary := {| year_1 := "2024"; year_2 := "2025"; total_change := 1;
                   total_change_pct := "50.0%"; levels_included := None |} |}.

Example two_faculties_enrollment :
  generate_wil_enrollment_comparison_table two_faculties = Some two_faculties_table ∧
  distinct_students two_faculties 2025 = 2%Z.
Proof. vm_compute. done. Qed.


(** *** Table 3: academic-level demographics *)

(** The distinct students of some records in a year. *)
Definition students (rs : list Enrollment) (y : Z) : gset Z :=
  set_of (MASKED_ID <$> filter (λ r, ACADEMIC_YEAR r = y) rs).

Lemma students_of_year_ok d y :
  "ACADEMIC_YEAR" ∈ columns d → "MASKED_ID" ∈ columns d →
  students_of_year d y = Ok (students (records d) y).
Proof.
  intros Hy Hm. unfold students_of_year, where_eq, col.
  rewrite bool_decide_eq_true_2 by done. cbn [bind columns records].
  by rewrite bool_decide_eq_true_2.
Qed.


Lemma len_nonneg s : (0 ≤ len s)%Z.
Proof. unfold len. lia. Qed.

Definition of_level (level : string) (rs : list Enrollment) : list Enrollment :=
  filter (λ r, ACADEMIC_LEVEL r = level) rs.

Definition of_faculty (faculty : string) (rs : list Enrollment) : list Enrollment :=
  filter (λ r, FACULTY_DESCR r = faculty) rs.

(** The row of a level inside a faculty, when the level has a student. *)
Definition level_rows (rs : list Enrollment) (y1 y2 : Z) (level : string) : list Row :=
  let c1 := len (students (of_level level rs) y1) in
  let c2 := len (students (of_level level rs) y2) in
  if (0 <? c1)%Z || (0 <? c2)%Z then
    [{| label := "    " +:+ level; count_1 := c1; count_2 := c2;
        pct_change := pct_text c1 c2 |}]
  else [].

Lemma level_step_ok fd y1 y2 table_rows s1 s2 level :
  "ACADEMIC_YEAR" ∈ columns fd → "MASKED_ID" ∈ columns fd →
  level_step fd y1 y2 (table_rows, s1, s2) level
  = Ok (table_rows ++ level_rows (records fd) y1 y2 level,
        s1 ∪ students (of_level level (records fd)) y1,
        s2 ∪ students (of_level level (records fd)) y2).
Proof.
  intros Hy Hm. unfold level_step.
  rewrite !students_of_year_ok by done. cbn [bind records].
  unfold level_rows, of_level. cbv zeta.
  destruct (_ || _).
  - rewrite pct_change_str_ok. done.
  - cbn [bind]. by rewrite app_nil_r.
Qed.

Lemma for_each_levels fd y1 y2 levels table_rows s1 s2 :
  "ACADEMIC_YEAR" ∈ columns fd → "MASKED_ID" ∈ columns fd →
  for_each levels (level_step fd y1 y2) (table_rows, s1, s2)
  = Ok (table_rows ++ mjoin (level_rows (records fd) y1 y2 <$> levels),
        s1 ∪ ⋃ ((λ level, students (of_level level (records fd)) y1) <$> levels),
        s2 ∪ ⋃ ((λ level, students (of_level level (records fd)) y2) <$> levels)).
Proof.
  intros Hy Hm. revert table_rows s1 s2.
  induction levels as [|level levels IH]; intros table_rows s1 s2.
  - cbn [for_each fmap list_fmap mjoin list_join union_list foldr].
    by rewrite app_nil_r, !(right_id_L ∅ (∪)).
  - cbn [for_each]. rewrite level_step_ok by done. cbn [bind]. rewrite IH.
    rewrite !fmap_cons. cbn [mjoin list_join union_list foldr].
    by rewrite <- app_assoc, <- !(assoc_L (∪)).
Qed.

(** The rows of a faculty: its header, its levels, its subtotal. *)
Definition faculty_header (rs : list Enrollment) (y1 y2 : Z) (faculty : string) : Row :=
  let c1 := len (students (of_faculty faculty rs) y1) in
  let c2 := len (students (of_faculty faculty rs) y2) in
  {| label := faculty; count_1 := c1; count_2 := c2; pct_change := pct_text c1 c2 |}.

Definition faculty_subtotal (rs : list Enrollment) (y1 y2 : Z) (levels : list string)
    (faculty : string) : list Row :=
  let c1 := len (⋃ ((λ level, students (of_level level (of_faculty faculty rs)) y1)
                      <$> levels)) in
  let c2 := len (⋃ ((λ level, students (of_level level (of_faculty faculty rs)) y2)
                      <$> levels)) in
  if (0 <? c1)%Z || (0 <? c2)%Z then
    [{| label := "  Total"; count_1 := c1; count_2 := c2; pct_change := pct_text c1 c2 |}]
  else [].

Definition faculty_block (rs : list Enrollment) (y1 y2 : Z) (levels : list string)
    (faculty : string) : list Row :=
  faculty_header rs y1 y2 faculty
    :: mjoin (level_rows (of_faculty faculty rs) y1 y2 <$> levels)
    ++ faculty_subtotal rs y1 y2 levels faculty.

Lemma faculty_step_ok d y1 y2 levels table_rows faculty :
  "ACADEMIC_YEAR" ∈ columns d → "MASKED_ID" ∈ columns d →
  "FACULTY_DESCR" ∈ columns d →
  faculty_step d y1 y2 levels table_rows faculty
  = Ok (table_rows ++ faculty_block (records d) y1 y2 levels faculty).
Proof.
  intros Hy Hm Hf. unfold faculty_step, where_eq.
  rewrite bool_decide_eq_true_2 by done. cbn [bind].
  rewrite !students_of_year_ok by done. cbn [bind records].
  rewrite pct_change_str_ok. cbn [bind].
  rewrite for_each_levels by done. cbn [bind records].
  rewrite !(left_id_L ∅ (∪)). rewrite pct_change_str_ok. cbn [bind].
  unfold faculty_block, faculty_subtotal, faculty_header, of_faculty. cbv zeta.
  destruct (_ || _).
  - by rewrite <- !app_assoc.
  - by rewrite app_nil_r, <- app_assoc.
Qed.

Lemma for_each_faculties d y1 y2 levels faculties table_rows :
  "ACADEMIC_YEAR" ∈ columns d → "MASKED_ID" ∈ columns d →
  "FACULTY_DESCR" ∈ columns d →
  for_each faculties (faculty_step d y1 y2 levels) table_rows
  = Ok (table_rows ++ mjoin (faculty_block (records d) y1 y2 levels <$> faculties)).
Proof.
  intros Hy Hm Hf. revert table_rows.
  induction faculties as [|f fs IH]; intros table_rows.
  - cbn [for_each fmap list_fmap mjoin list_join]. by rewrite app_nil_r.
  - cbn [for_each]. rewrite faculty_step_ok by done. cbn [bind]. rewrite IH.
    rewrite fmap_cons. cbn [mjoin list_join]. by rewrite <- app_assoc.
Qed.

(** The levels the table lists, in its order. *)
Definition table_levels (df : DataFrame) : list string :=
  let actual_levels := unique (determine_academic_level <$> (COURSE_CODE <$> records df)) in
  let levels_with_data : gset string :=
    list_to_set (filter (λ level, of_level level (records df) ≠ []) actual_levels) in
  filter (λ level, level ∈ levels_with_data) preferred_level_order ++
  sorted_str (filter (λ level, level ∉ preferred_level_order) (elements levels_with_data)).

Definition student_count_faculties (df : DataFrame) : list string :=
  sorted_str (unique (FACULTY_DESCR <$> records df)).

Definition student_count_grand_total (df : DataFrame) (y1 y2 : Z) : Row :=
  let g1 := len (students (records df) y1) in
  let g2 := len (students (records df) y2) in
  {| label := "Grand Total"; count_1 := g1; count_2 := g2; pct_change := pct_text g1 g2 |}.

Definition student_count_table (df : DataFrame) (y1 y2 : Z) : ComparisonTable :=
  let g := student_count_grand_total df y1 y2 in
  {| title := "Table 3: Multi-Year Student Demographics Analysis ("
                +:+ str y1 +:+ " vs " +:+ str y2 +:+ ")";
     headers := ["Distinct Count of WIL Students"; str y1; str y2; "% Change"];
     rows := mjoin (faculty_block (records df) y1 y2 (table_levels df)
                      <$> student_count_faculties df) ++ [g];
     summary := {| year_1 := str y1; year_2 := str y2;
                   total_change := (count_2 g - count_1 g)%Z;
                   total_change_pct := pct_change g;
                   levels_included := Some (table_levels df) |} |}.

(** Either table 3 is the empty mapping, or it is [student_count_table] for
    the two most recent years. *)
Lemma student_count_cases df :
  generate_distinct_student_count_table df = None ∨
  ∃ y1 y2, compared_years df y1 y2 ∧
    generate_distinct_student_count_table df = Some (student_count_table df y1 y2).
Proof.
  destruct (decide (distinct_years df < 2)) as [Hy|Hy];
    [left; by apply student_count_body_few_years|].
  unfold generate_distinct_student_count_table, student_count_body.
  destruct (decide ("ACADEMIC_YEAR" ∈ columns df)) as [Hc|Hc];
    [|left; by rewrite col_absent].
  rewrite col_present by done. cbn [bind].
  fold (available_years df). rewrite length_available_years.
  rewrite bool_decide_eq_false_2 by done.
  destruct (available_years_last_two df) as (y1 & y2 & -> & -> & Hyears); [lia|].
  cbn [bind].
  destruct (decide ("COURSE_CODE" ∈ columns df)) as [Hcc|Hcc];
    [|left; by rewrite col_absent].
  rewrite col_present by done. cbn [bind].
  set (d := {| columns := columns df ++ ["ACADEMIC_LEVEL"]; records := records df |}).
  destruct (decide ("FACULTY_DESCR" ∈ columns df)) as [Hf|Hf].
  2:{ left. rewrite col_absent; [done|]. unfold d. cbn [columns].
      intros [?|?%list_elem_of_singleton]%elem_of_app; done. }
  assert (Hfd : "FACULTY_DESCR" ∈ columns d) by (apply elem_of_app; by left).
  assert (Hyd : "ACADEMIC_YEAR" ∈ columns d) by (apply elem_of_app; by left).
  rewrite col_present by done. cbn [bind].
  destruct (decide ("MASKED_ID" ∈ columns df)) as [Hm|Hm].
  2:{ left. unfold students_of_year at 1. unfold where_eq.
      rewrite bool_decide_eq_true_2 by done. cbn [bind].
      rewrite col_absent; [done|]. unfold d. cbn [columns].
      intros [?|?%list_elem_of_singleton]%elem_of_app; done. }
  assert (Hmd : "MASKED_ID" ∈ columns d) by (apply elem_of_app; by left).
  rewrite !students_of_year_ok by done. cbn [bind].
  rewrite for_each_faculties by done. cbn [bind].
  rewrite total_pct_change_str_ok. cbn [bind try_except].
  right. exists y1, y2. split; [done|]. done.
Qed.


Definition two_faculties_demographics : ComparisonTable :=
  {| title := "Table 3: Multi-Year Student Demographics Analysis (2024 vs 2025)";
     headers := ["Distinct Count of WIL Students"; "2024"; "2025"; "% Change"];
     rows :=
       [{| label := "X"; count_1 := 2; count_2 := 2; pct_change := "0.0%" |};
        {| label := "    Undergraduate"; count_1 := 2; count_2 := 2;
           pct_change := "0.0%" |};
        {| label := "  Total"; count_1 := 2; count_2 := 2; pct_change := "0.0%" |};
        {| label := "Y"; count_1 := 0; count_2 := 1; pct_change := "New" |};
        {| label := "    Undergraduate"; count_1 := 0; count_2 := 1;
           pct_change := "New" |};
        {| label := "  Total"; count_1 := 0; count_2 := 1; pct_change := "New" |};
        {| label := "Grand Total"; count_1 := 2; count_2 := 2; pct_change := "0.0%" |}];
     summary := {| year_1 := "2024"; year_2 := "2025"; total_change := 0;
                   total_change_pct := "0.0%";
                   levels_included := Some ["Undergraduate"] |} |}.

Example two_faculties_student_count :
  generate_distinct_student_count_table two_faculties = Some two_faculties_demographics.
Proof. vm_compute. reflexivity. Qed.


(** *** Every row obeys the percentage-change law *)

Lemma row_law_intro label c1 c2 :
  (0 ≤ c1)%Z → (0 ≤ c2)%Z →
  row_law {| label := label; count_1 := c1; count_2 := c2; pct_change := pct_text c1 c2 |}.
Proof. intros H1 H2. repeat split; try done; apply pct_text_law. Qed.

Lemma default_groupby_nonneg rs f : (0 ≤ default 0 (groupby_nunique rs !! f))%Z.
Proof. rewrite groupby_nunique_lookup. lia. Qed.

Lemma enrollment_table_law df y1 y2 : Forall row_law (rows (enrollment_table df y1 y2)).
Proof.
  unfold enrollment_table. cbn [rows]. apply Forall_app. split.
  - unfold enrollment_faculty_rows. rewrite Forall_fmap. apply Forall_true.
    intros f. apply row_law_intro; apply default_groupby_nonneg.
  - apply Forall_singleton. unfold enrollment_grand_total.
    rewrite enrollment_sum_1, enrollment_sum_2. apply row_law_intro; lia.
Qed.

Lemma level_rows_law rs y1 y2 level : Forall row_law (level_rows rs y1 y2 level).
Proof.
  unfold level_rows. cbv zeta. destruct (_ || _); [|constructor].
  apply Forall_singleton, row_law_intro; apply len_nonneg.
Qed.

Lemma faculty_block_law rs y1 y2 levels f :
  Forall row_law (faculty_block rs y1 y2 levels f).
Proof.
  unfold faculty_block. apply Forall_cons. split.
  - apply row_law_intro; apply len_nonneg.
  - apply Forall_app. split.
    + apply Forall_forall. intros r (l & Hr & Hl)%list_elem_of_join.
      apply list_elem_of_fmap in Hl as (level & -> & _).
      pose proof (level_rows_law (of_faculty f rs) y1 y2 level) as Hlaw.
      rewrite Forall_forall in Hlaw. by apply Hlaw.
    + unfold faculty_subtotal. cbv zeta. destruct (_ || _); [|constructor].
      apply Forall_singleton, row_law_intro; apply len_nonneg.
Qed.

Lemma student_count_table_law df y1 y2 :
  Forall row_law (rows (student_count_table df y1 y2)).
Proof.
  unfold student_count_table. cbn [rows]. apply Forall_app. split.
  - apply Forall_forall. intros r (l & Hr & Hl)%list_elem_of_join.
    apply list_elem_of_fmap in Hl as (f & -> & _).
    pose proof (faculty_block_law (records df) y1 y2 (table_levels df) f) as Hlaw.
    rewrite Forall_forall in Hlaw. by apply Hlaw.
  - apply Forall_singleton, row_law_intro; apply len_nonneg.
Qed.

(** C1. The '% Change' of every row of the two comparison tables (faculty,
    level, subtotal and Grand Total rows) follows the sentinel law on the
    row's own counts: one-decimal percentage when the year-1 count is
    positive, "New" when it is 0 and the year-2 count is positive, "N/A" when
    both are 0; and neither block of the code ever divides by zero. *)
Theorem percentage_change_law :
  (∀ c1 c2 : Z,
     pct_change_str c1 c2 ≠ Raise ZeroDivisionError ∧
     total_pct_change_str c1 c2 ≠ Raise ZeroDivisionError ∧
     ∃ s, pct_change_str c1 c2 = Ok s ∧ total_pct_change_str c1 c2 = Ok s ∧
          sentinel_law c1 c2 s) ∧
  (∀ df t, generate_wil_enrollment_comparison_table df = Some t →
           Forall row_law (rows t)) ∧
  (∀ df t, generate_distinct_student_count_table df = Some t →
           Forall row_law (rows t)).
Proof.
  split; [|split].
  - intros c1 c2. rewrite pct_change_str_ok, total_pct_change_str_ok.
    split; [done|]. split; [done|].
    exists (pct_text c1 c2). split; [done|]. split; [done|]. apply pct_text_law.
  - intros df t Ht.
    destruct (enrollment_cases df) as [Hn|(y1 & y2 & _ & _ & _ & _ & Hs)];
      [congruence|].
    rewrite Hs in Ht. injection Ht as <-. apply enrollment_table_law.
  - intros df t Ht.
    destruct (student_count_cases df) as [Hn|(y1 & y2 & _ & Hs)]; [congruence|].
    rewrite Hs in Ht. injection Ht as <-. apply student_count_table_law.
Qed.

Lemma percentage_change_law_witness :
  Forall row_law (rows two_faculties_table) ∧
  Forall row_law (rows two_faculties_demographics).
Proof.
  split.
  - apply (proj1 (proj2 percentage_change_law) two_faculties).
    vm_compute. reflexivity.
  - apply (proj2 (proj2 percentage_change_law) two_faculties).
    vm_compute. reflexivity.
Defined.

(** Scenario A and B of the specification. *)
Example pct_text_examples :
  pct_text 10 15 = "50.0%"%string ∧ pct_text 0 3 = "New"%string ∧
  pct_text 0 0 = "N/A"%string ∧ pct_text 3 4 = "33.3%"%string ∧
  pct_text 3 1 = "-66.7%"%string.
Proof. vm_compute. done. Qed.

(** *** Column names of table 2 *)







(** *** Dictionaries keyed by column name *)














(** *** Table 2: term breakdown *)

(** The distinct students of some records in a (year, term) pair. *)
Definition term_count (rs : list Enrollment) (p : Z * Z) : Z :=
  nunique (MASKED_ID <$> filter (λ r, TERM r = p.2)
                           (filter (λ r, ACADEMIC_YEAR r = p.1) rs)).

Lemma term_count_nonneg rs p : (0 ≤ term_count rs p)%Z.
Proof. unfold term_count, nunique. lia. Qed.











(** [available_terms] and the faculties of table 2. *)
Definition available_terms (df : DataFrame) : list Z :=
  sorted (unique (TERM <$> records df)).















(** Two records, a different term in each year. *)
Definition term_per_year : DataFrame :=
  {| columns := all_columns;
     records := [enrolled 1 2024 1 "X" "COMP1511"; enrolled 2 2025 2 "X" "COMP1511"] |}.

Definition term_per_year_table : TermTable :=
  {| term_title := "Table 2: Term Breakdown (2024-2025)";
     term_headers := ["Count of WIL Enrolments"; "Term";
                      "2024 1"; "2024 2"; "2025 1"; "2025 2"];
     level1 := ["Count of WIL Enrolments"; "Term"; "2024"; "2024"; "2025"; "2025"];
     level2 := [HText ""; HText ""; HTerm 1; HTerm 2; HTerm 1; HTerm 2];
     term_rows :=
       [{| Count_of_WIL_Enrolments := ""; Term := "X";
           term_counts := [("2024 1", 1); ("2024 2", 0); ("2025 1", 0); ("2025 2", 1)]%Z |};
        {| Count_of_WIL_Enrolments := ""; Term := "Grand Total";
           term_counts := [("2024 1", 1); ("2024 2", 0); ("2025 1", 0); ("2025 2", 1)]%Z |}];
     term_summary := {| total_students := 2; total_faculties := 1;
                        years_covered := ["2024"; "2025"];
                        terms_included := [1; 2]%Z |} |}.

Example term_per_year_breakdown :
  generate_term_breakdown_table term_per_year = Some term_per_year_table.
Proof. vm_compute. reflexivity. Qed.



End VisualizationFacts.

(** ** Further properties of the cleaning steps *)

Module CleaningInvariants.
Import Py Pd PdFacts Cleaning CleaningFacts.

(** *** Lists without a repeated key *)

Section Keys.
Context {A K : Type} `{EqDecision K}.
Variable key : A → K.

Lemma keep_first_fixed (l : list A) : NoDup (key <$> l) → keep_first key l = l.
Proof.
  induction l as [|x l IH]; intros Hnd; [done|].
  rewrite fmap_cons in Hnd. apply NoDup_cons in Hnd as [Hx Hnd].
  cbn [keep_first]. rewrite IH by done. f_equal.
  apply VisualizationFacts.filter_all. intros y Hy Heq. apply Hx.
  rewrite <- Heq. by apply list_elem_of_fmap_2.
Qed.

Lemma duplicated_none (l : list A) :
  NoDup (key <$> l) → mask_sum (duplicated key l) = 0.
Proof.
  intros Hnd. pose proof (length_drop_duplicates key l) as Hlen.
  rewrite drop_duplicates_keep_first, keep_first_fixed in Hlen by done. lia.
Qed.


Lemma NoDup_keys_NoDup (l : list A) : NoDup (key <$> l) → NoDup l.
Proof. apply NoDup_fmap_1. Qed.
End Keys.

(** *** [check_duplicates] *)

Lemma rows_exact_pass_NoDup df : NoDup (rows (exact_pass df)).
Proof.
  unfold exact_pass; cbn [rows].
  pose proof (keep_first_NoDup (@id (list cell)) (rows df)) as H.
  by rewrite list_fmap_id in H.
Qed.

Lemma has_business_key_exact_pass df :
  has_business_key (exact_pass df) ↔ has_business_key df.
Proof. done. Qed.

Lemma rows_business_key_pass_sublist df :
  rows (business_key_pass df) `sublist_of` rows df.
Proof.
  unfold business_key_pass. destruct (decide (has_business_key df)); [|done].
  cbn [rows]. apply keep_first_sublist.
Qed.

Lemma columns_business_key_pass df : columns (business_key_pass df) = columns df.
Proof. unfold business_key_pass. by destruct (decide (has_business_key df)). Qed.

Lemma business_key_pass_keys df :
  has_business_key df →
  NoDup (student_term_course (columns df) <$> rows (business_key_pass df)).
Proof.
  intros Hk. unfold business_key_pass. rewrite decide_True by done.
  cbn [rows]. apply keep_first_NoDup.
Qed.

(** X1. The frame [check_duplicates] returns has the columns of its input
    and a selection of its rows in their order; no row occurs twice in it
    and, when the three business-key columns are present, no two rows share
    student, term and course; every input row is still represented, by
    itself or by a row with the same student, term and course. *)
Theorem check_duplicates_result_unique (self : DataCleaner) (df : DataFrame) :
  let out := snd (check_duplicates self df) in
  columns out = columns df ∧
  rows out `sublist_of` rows df ∧
  NoDup (rows out) ∧
  (has_business_key df →
     NoDup (student_term_course (columns df) <$> rows out)) ∧
  (∀ row, row ∈ rows df →
     if decide (has_business_key df)
     then ∃ kept, kept ∈ rows out ∧
            student_term_course (columns df) kept
            = student_term_course (columns df) row
     else row ∈ rows out).
Proof.
  intros out. unfold out. rewrite check_duplicates_frame.
  split; [by rewrite columns_business_key_pass|].
  split.
  { etrans; [apply rows_business_key_pass_sublist|].
    unfold exact_pass; cbn [rows]. apply keep_first_sublist. }
  split.
  { eapply sublist_NoDup; [|apply rows_business_key_pass_sublist].
    apply rows_exact_pass_NoDup. }
  split.
  { intros Hk. apply (business_key_pass_keys (exact_pass df)), Hk. }
  intros row Hrow.
  destruct (keep_first_covers (@id (list cell)) row (rows df) Hrow)
    as (r1 & Hr1 & Heq1). unfold id in Heq1. subst r1.
  unfold business_key_pass.
  destruct (decide (has_business_key df)) as [Hk|Hk].
  - rewrite decide_True by done. cbn [rows columns exact_pass].
    destruct (keep_first_covers (student_term_course (columns df)) row
                (keep_first id (rows df)) Hr1) as (kept & Hkept & Heq).
    by exists kept.
  - rewrite decide_False by done. done.
Qed.

(** X2. Running [check_duplicates] on its own result removes nothing and
    logs nothing. *)
Theorem check_duplicates_idempotent (self self' : DataCleaner) (df : DataFrame) :
  check_duplicates self' (snd (check_duplicates self df))
  = (self', snd (check_duplicates self df)).
Proof.
  rewrite check_duplicates_frame.
  set (out := business_key_pass (exact_pass df)).
  assert (Hnd : NoDup (rows out)).
  { eapply sublist_NoDup; [|apply rows_business_key_pass_sublist].
    apply rows_exact_pass_NoDup. }
  assert (Hcols : columns out = columns df).
  { unfold out. by rewrite columns_business_key_pass. }
  rewrite check_duplicates_steps.
  assert (Hfirst : first_step self' out = (self', out)).
  { unfold first_step.
    rewrite (duplicated_none id) by (by rewrite list_fmap_id).
    by rewrite bool_decide_eq_false_2 by lia. }
  rewrite Hfirst. unfold second_step.
  case_bool_decide as Hk; [|done].
  apply Forall_business_key in Hk.
  assert (Hk' : has_business_key (exact_pass df)).
  { unfold has_business_key in *. by rewrite Hcols in Hk. }
  pose proof (business_key_pass_keys (exact_pass df) Hk') as Hkeys.
  fold out in Hkeys.
  replace (columns (exact_pass df)) with (columns out) in Hkeys by done.
  pose proof (length_drop_duplicates
                (subset_key (columns out) business_key) (rows out)) as Hlen.
  rewrite <- business_key_rows, (keep_first_fixed _ _ Hkeys) in Hlen.
  rewrite bool_decide_eq_false_2 by lia. done.
Qed.

(** X3. The numbers [check_duplicates] writes to the log are the numbers
    of rows its two passes remove: the first entry, present when the exact
    pass removes a row, carries the size of that removal, the second the
    size of the business-key removal, and nothing else is logged. *)
Theorem check_duplicates_log_numbers (self : DataCleaner) (df : DataFrame) :
  let first_pass := keep_first id (rows df) in
  let out := snd (check_duplicates self df) in
  let n1 := length (rows df) - length first_pass in
  let n2 := length first_pass - length (rows out) in
  length (rows out) ≤ length first_pass ≤ length (rows df) ∧
  cleaning_log (fst (check_duplicates self df))
  = cleaning_log self
    ++ (if bool_decide (0 < n1) then [exact_entry n1] else [])
    ++ (if bool_decide (0 < n2) then [business_key_entry n2] else []).
Proof.
  intros first_pass out n1 n2.
  pose proof (check_duplicates_count self df) as Hcount.
  pose proof (length_drop_duplicates (@id (list cell)) (rows df)) as H1.
  rewrite drop_duplicates_keep_first in H1.
  fold first_pass in H1. fold (exact_duplicates df) in H1.
  fold out in Hcount.
  assert (Hn1 : n1 = exact_duplicates df) by (unfold n1; lia).
  assert (Hn2 : n2 = business_key_duplicates (exact_pass df)) by (unfold n2; lia).
  split; [lia|].
  rewrite check_duplicates_log, Hn1, Hn2. done.
Qed.

End CleaningInvariants.

(** ** Text primitives *)

Module StringFacts.
Import Py.

Lemma append_cons (c : ascii) (s t : string) :
  String c s +:+ t = String c (s +:+ t).
Proof. reflexivity. Qed.

Lemma append_nil_l (t : string) : "" +:+ t = t.
Proof. reflexivity. Qed.

Lemma append_nil_r (s : string) : s +:+ "" = s.
Proof. induction s as [|c s IH]; [done|]. by rewrite append_cons, IH. Qed.

Lemma append_assoc (s t u : string) : (s +:+ t) +:+ u = s +:+ (t +:+ u).
Proof. induction s as [|c s IH]; [done|]. by rewrite !append_cons, IH. Qed.

(** *** Reversal *)

Lemma rev_string_onto_app (s acc : string) :
  rev_string_onto s acc = rev_string s +:+ acc.
Proof.
  unfold rev_string. revert acc. induction s as [|c s IH]; intros acc; [done|].
  cbn [rev_string_onto]. rewrite (IH (String c acc)), (IH (String c "")).
  by rewrite append_assoc.
Qed.

Lemma rev_string_cons (c : ascii) (s : string) :
  rev_string (String c s) = rev_string s +:+ String c "".
Proof. unfold rev_string at 1. cbn [rev_string_onto]. apply rev_string_onto_app. Qed.

Lemma rev_string_append (s t : string) :
  rev_string (s +:+ t) = rev_string t +:+ rev_string s.
Proof.
  induction s as [|c s IH].
  - by rewrite append_nil_l, append_nil_r.
  - rewrite append_cons, !rev_string_cons, IH. apply append_assoc.
Qed.

Lemma rev_string_involutive (s : string) : rev_string (rev_string s) = s.
Proof.
  induction s as [|c s IH]; [done|].
  rewrite rev_string_cons, rev_string_append, IH. done.
Qed.

(** *** White space *)

(** The text does not begin with a white-space character. *)
Definition starts_clean (s : string) : Prop :=
  match s with
  | EmptyString => True
  | String c _ => isspace c = false
  end.

(** Only white space. *)
Fixpoint all_space (s : string) : Prop :=
  match s with
  | EmptyString => True
  | String c s' => isspace c = true ∧ all_space s'
  end.

Lemma lstrip_starts_clean (s : string) : starts_clean (lstrip s).
Proof.
  induction s as [|c s IH]; [done|]. cbn [lstrip].
  destruct (isspace c) eqn:Hc; [done|]. exact Hc.
Qed.

Lemma lstrip_clean (s : string) : starts_clean s → lstrip s = s.
Proof. destruct s as [|c s]; [done|]. cbn. by intros ->. Qed.

Lemma lstrip_split (s : string) : ∃ w, all_space w ∧ s = w +:+ lstrip s.
Proof.
  induction s as [|c s (w & Hw & IH)]; [by exists ""|]. cbn [lstrip].
  destruct (isspace c) eqn:Hc.
  - exists (String c w). split; [done|]. by rewrite append_cons, <- IH.
  - by exists "".
Qed.

Lemma starts_clean_append (s t : string) :
  starts_clean (s +:+ t) → starts_clean s.
Proof. by destruct s. Qed.

Lemma strip_split (s : string) :
  ∃ w1 w2, all_space w1 ∧ all_space w2 ∧ s = w1 +:+ strip s +:+ rev_string w2.
Proof.
  unfold strip.
  destruct (lstrip_split s) as (w1 & Hw1 & Hs).
  destruct (lstrip_split (rev_string (lstrip s))) as (w2 & Hw2 & Ht).
  exists w1, w2. split; [done|]. split; [done|].
  rewrite <- rev_string_append, <- Ht, rev_string_involutive. done.
Qed.

Lemma strip_starts_clean (s : string) : starts_clean (strip s).
Proof.
  unfold strip.
  destruct (lstrip_split (rev_string (lstrip s))) as (w & Hw & Ht).
  apply (f_equal rev_string) in Ht.
  rewrite rev_string_involutive, rev_string_append in Ht.
  apply (starts_clean_append _ (rev_string w)). rewrite <- Ht.
  apply lstrip_starts_clean.
Qed.

(** [strip] is idempotent. *)
Lemma strip_strip (s : string) : strip (strip s) = strip s.
Proof.
  unfold strip at 1. rewrite (lstrip_clean (strip s)) by apply strip_starts_clean.
  unfold strip. rewrite rev_string_involutive.
  rewrite (lstrip_clean (lstrip _)) by apply lstrip_starts_clean. done.
Qed.

(** *** Upper case *)

Lemma isspace_upper_ascii (c : ascii) : isspace (upper_ascii c) = isspace c.
Proof. destruct c as [[] [] [] [] [] [] [] []]; vm_compute; reflexivity. Qed.

Lemma upper_ascii_idemp (c : ascii) : upper_ascii (upper_ascii c) = upper_ascii c.
Proof. destruct c as [[] [] [] [] [] [] [] []]; vm_compute; reflexivity. Qed.

Lemma upper_upper (s : string) : upper (upper s) = upper s.
Proof.
  induction s as [|c s IH]; [done|]. cbn [upper].
  by rewrite upper_ascii_idemp, IH.
Qed.

Lemma upper_append (s t : string) : upper (s +:+ t) = upper s +:+ upper t.
Proof.
  induction s as [|c s IH]; [done|]. rewrite append_cons. cbn [upper].
  by rewrite IH, append_cons.
Qed.

Lemma upper_rev_string (s : string) : upper (rev_string s) = rev_string (upper s).
Proof.
  induction s as [|c s IH]; [done|]. cbn [upper].
  rewrite !rev_string_cons, upper_append, IH. done.
Qed.

Lemma upper_lstrip (s : string) : upper (lstrip s) = lstrip (upper s).
Proof.
  induction s as [|c s IH]; [done|]. cbn [upper lstrip].
  rewrite isspace_upper_ascii. destruct (isspace c); [done|]. done.
Qed.

Lemma upper_strip (s : string) : upper (strip s) = strip (upper s).
Proof.
  unfold strip.
  by rewrite upper_rev_string, upper_lstrip, upper_rev_string, upper_lstrip.
Qed.

(** *** Substrings *)

Lemma prefix_append (p s : string) :
  String.prefix p s = true ↔ ∃ b, s = p +:+ b.
Proof.
  revert s. induction p as [|a p IH]; intros s.
  - split; [intros _; by exists s|]. by destruct s.
  - destruct s as [|c s]; cbn [String.prefix].
    + split; [done|]. by intros [b Hb].
    + destruct (ascii_dec a c) as [->|Hne].
      * rewrite IH. split; intros [b Hb]; exists b;
          rewrite ?append_cons in *; congruence.
      * split; [done|]. intros [b Hb]. rewrite append_cons in Hb. congruence.
Qed.

(** [pat in s] holds exactly when [s] is [pat] between two texts. *)
Lemma contains_append (p s : string) :
  contains p s = true ↔ ∃ a b, s = a +:+ p +:+ b.
Proof.
  split.
  - induction s as [|c s IH]; cbn [contains]; rewrite orb_true_iff.
    + intros [[b Hb]%prefix_append|]; [|done]. by exists "", b.
    + intros [[b Hb]%prefix_append|Hc]; [by exists "", b|].
      destruct (IH Hc) as (a & b & ->). by exists (String c a), b.
  - intros (a & b & ->). induction a as [|c a IH].
    + rewrite append_nil_l.
      assert (Hp : String.prefix p (p +:+ b) = true)
        by (apply prefix_append; by exists b).
      destruct (p +:+ b); cbn [contains]; by rewrite Hp.
    + rewrite append_cons. cbn [contains]. rewrite IH. apply orb_true_r.
Qed.

Lemma contains_strip_1 (p s : string) :
  contains p (strip s) = true → contains p s = true.
Proof.
  rewrite !contains_append. intros (a & b & Hs).
  destruct (strip_split s) as (w1 & w2 & _ & _ & Hsplit).
  rewrite Hs in Hsplit. exists (w1 +:+ a), (b +:+ rev_string w2).
  by rewrite Hsplit, !append_assoc.
Qed.

Lemma contains_rev_string (p s : string) :
  contains p s = true → contains (rev_string p) (rev_string s) = true.
Proof.
  rewrite !contains_append. intros (a & b & ->).
  exists (rev_string b), (rev_string a).
  by rewrite !rev_string_append, append_assoc.
Qed.

Lemma contains_lstrip (p s : string) :
  p ≠ "" → starts_clean p → contains p s = true → contains p (lstrip s) = true.
Proof.
  intros Hp Hclean. induction s as [|c s IH]; [done|].
  cbn [lstrip]. destruct (isspace c) eqn:Hc; [|done].
  cbn [contains]. rewrite orb_true_iff. intros [Hpre|Hin]; [|by apply IH].
  destruct p as [|a p]; [done|]. cbn in Hpre, Hclean.
  destruct (ascii_dec a c) as [->|]; congruence.
Qed.

(** A pattern that neither begins nor ends with white space is found in
    the stripped text whenever it is found in the text. *)
Lemma contains_strip_2 (p s : string) :
  p ≠ "" → starts_clean p → starts_clean (rev_string p) →
  contains p s = true → contains p (strip s) = true.
Proof.
  intros Hp Hc1 Hc2 Hin. unfold strip.
  rewrite <- (rev_string_involutive p). apply contains_rev_string.
  apply contains_lstrip; [|done|].
  { intros Hr. apply (f_equal rev_string) in Hr.
    by rewrite rev_string_involutive in Hr. }
  apply contains_rev_string. by apply contains_lstrip.
Qed.

Lemma contains_strip (p s : string) :
  p ≠ "" → starts_clean p → starts_clean (rev_string p) →
  contains p (strip s) = contains p s.
Proof.
  intros Hp Hc1 Hc2. apply eq_true_iff_eq.
  split; [apply contains_strip_1|by apply contains_strip_2].
Qed.

End StringFacts.

(** ** The cells of a cleaned frame *)

Module CellFacts.
Import Py Pd PdFacts Cleaning CleaningFacts StringFacts CleaningInvariants.



(** *** A property of every cell, by the name of its column *)

Fixpoint row_cells (P : string → cell → Prop) (cols : list string) (row : list cell)
  : Prop :=
  match cols, row with
  | c :: cols', x :: row' => P c x ∧ row_cells P cols' row'
  | _, _ => True
  end.

(** Every cell that stands under a column named [c] satisfies [P c]. *)
Definition cells (P : string → cell → Prop) (df : DataFrame) : Prop :=
  Forall (row_cells P (columns df)) (rows df).




Lemma row_cells_fmap (P Q : string → cell → Prop) cols (f : cell → cell) row :
  (∀ c x, P c x → Q c (f x)) →
  row_cells P cols row → row_cells Q cols (f <$> row).
Proof.
  intros Hf. revert row.
  induction cols as [|c cols IH]; intros [|x row]; cbn; try done.
  intros [Hx Hrow]. split; [by apply Hf|]. by apply IH.
Qed.









Lemma cells_map_cells (P Q : string → cell → Prop) f df :
  cells P df → (∀ c x, P c x → Q c (f x)) → cells Q (map_cells f df).
Proof.
  intros HP Hf. unfold cells, map_cells; cbn [columns rows].
  rewrite Forall_fmap. eapply Forall_impl; [exact HP|].
  intros row Hrow. cbn. by apply (row_cells_fmap P).
Qed.



(** *** What each stage leaves in a cell *)









Section Coercions.
Variable to_numeric : string → option Z.
Variable astype_str : Z → string.








End Coercions.




Section Pipeline.
Variable to_numeric : string → option Z.
Variable astype_str : Z → string.


End Pipeline.

End CellFacts.

(** ** A whole cleaning run *)

Module CleanDataFacts.
Import Py Pd PdFacts Cleaning CleaningFacts StringFacts CleaningInvariants CellFacts.

(** *** One cell per column, stage by stage *)






Section Pipeline.
Variable to_numeric : string → option Z.
Variable astype_str : Z → string.
Variable consistency_issues : DataFrame → list (list piece).




(** *** The frame a run returns *)














End Pipeline.



End CleanDataFacts.

(** ** Missing values: what is counted and what is logged *)

Module MissingValueFacts.
Import Py Pd PdFacts Cleaning CleaningFacts CleaningInvariants CellFacts.

(** A cell holding the empty text or a single space. *)
Definition blank (c : cell) : Prop := c = Some (SStr "") ∨ c = Some (SStr " ").

#[local] Instance blank_dec c : Decision (blank c).
Proof. unfold blank. apply _. Defined.

Definition blank_to_missing (c : cell) : cell :=
  if decide (blank c) then None else c.

Lemma replace_blank c :
  replace_with_nan " " (replace_with_nan "" c) = blank_to_missing c.
Proof.
  unfold replace_with_nan, blank_to_missing, blank.
  destruct (decide _) as [[->| ->]|Hn].
  - reflexivity.
  - reflexivity.
  - rewrite (bool_decide_eq_false_2 (c = Some (SStr ""))) by tauto.
    rewrite bool_decide_eq_false_2 by tauto. done.
Qed.

Lemma blank_to_missing_None c : blank_to_missing c = None ↔ c = None ∨ blank c.
Proof.
  unfold blank_to_missing. destruct (decide (blank c)) as [Hb|Hb]; [tauto|].
  split; [by left|]. intros [?|?]; tauto.
Qed.

Lemma blank_to_missing_not_blank c : ¬ blank (blank_to_missing c).
Proof.
  unfold blank_to_missing. destruct (decide (blank c)) as [Hb|Hb]; [|done].
  by intros [?|?].
Qed.

Lemma count_missing_fmap (h : cell → cell) (l : list cell) :
  length (filter (λ c, c = None) (h <$> l))
  = length (filter (λ c, h c = None) l).
Proof.
  induction l as [|x l IH]; [done|]. rewrite fmap_cons.
  destruct (decide (h x = None)) as [Hx|Hx].
  - rewrite !filter_cons_True by done. cbn [length]. f_equal. exact IH.
  - rewrite !filter_cons_False by done. exact IH.
Qed.

Lemma total_missing_map_cells (h : cell → cell) (df : DataFrame) :
  total_missing (map_cells h df)
  = length (filter (λ c, h c = None) (mjoin (rows df))).
Proof.
  unfold total_missing, map_cells; cbn [rows].
  induction (rows df) as [|r rs IH]; [done|].
  rewrite fmap_cons. cbn [mjoin list_join].
  rewrite !filter_app, !length_app. f_equal; [apply count_missing_fmap|exact IH].
Qed.

Lemma map_cells_map_cells f g df :
  map_cells f (map_cells g df) = map_cells (f ∘ g) df.
Proof.
  unfold map_cells; cbn [rows columns]. f_equal.
  rewrite <- list_fmap_compose. apply list_fmap_ext. intros i row _. cbn.
  by rewrite <- list_fmap_compose.
Qed.

Lemma handle_missing_values_frame self df :
  snd (handle_missing_values self df) = map_cells blank_to_missing df.
Proof.
  unfold handle_missing_values; cbn [snd]. rewrite map_cells_map_cells.
  unfold map_cells. f_equal. apply list_fmap_ext. intros i row _.
  apply list_fmap_ext. intros j c _. apply replace_blank.
Qed.

(** X7. [handle_missing_values] turns exactly the cells holding the empty
    text or a single space into missing cells and changes no other cell;
    afterwards no cell is blank, and the number it logs is the number of
    input cells that were missing or blank. *)
Theorem handle_missing_values_blanks (self : DataCleaner) (df : DataFrame) :
  let out := snd (handle_missing_values self df) in
  columns out = columns df ∧
  rows out = fmap (M:=list) (λ c, if decide (blank c) then None else c) <$> rows df ∧
  Forall (Forall (λ c, ¬ blank c)) (rows out) ∧
  cleaning_log (fst (handle_missing_values self df))
  = cleaning_log self
    ++ [{| action := "Missing Value Handling";
           details :=
             [Lit "Converted empty strings to NaN, total missing: ";
              Num (Z.of_nat (length (filter (λ c, c = None ∨ blank c)
                                       (mjoin (rows df)))))] |}].
Proof.
  intros out. unfold out. rewrite handle_missing_values_frame.
  split; [done|]. split; [done|]. split.
  { unfold map_cells; cbn [rows]. rewrite Forall_fmap.
    apply Forall_forall. intros row _. cbn. rewrite Forall_fmap.
    apply Forall_forall. intros c _. apply blank_to_missing_not_blank. }
  unfold handle_missing_values. cbn [fst cleaning_log log_action set_quality_report].
  rewrite map_cells_map_cells.
  assert (Hframe : map_cells (replace_with_nan " " ∘ replace_with_nan "") df
                   = map_cells blank_to_missing df).
  { unfold map_cells. f_equal. apply list_fmap_ext. intros i row _.
    apply list_fmap_ext. intros j c _. apply replace_blank. }
  rewrite Hframe, total_missing_map_cells.
  do 6 f_equal. apply (f_equal (λ l : list cell, Z.of_nat (length l))).
  apply list_filter_iff. intros c. apply blank_to_missing_None.
Qed.

(** *** The log of [fill_missing_values] *)

(** The entry a column gets: none when it has no missing cell. *)
Definition fill_entry (df : DataFrame) (col : string) : list LogEntry :=
  let n := isnull_sum (column df col) in
  if bool_decide (0 < n) then
    [{| action := "Missing Value Fill";
        details := [Lit col; Lit ": filled "; Num (Z.of_nat n);
                    Lit (if bool_decide (col ∈ integer_fields)
                         then " missing values with 0"
                         else " missing values with 'Unknown'")] |}]
  else [].

Lemma cell_at_pos_map g cols row col :
  (∀ x, g col x = x) →
  cell_at cols (pos_map g cols row) col = cell_at cols row col.
Proof.
  intros Hg. revert row.
  induction cols as [|c cols IH]; intros [|x row]; cbn; try done.
  case_bool_decide as Hc; [subst c; apply Hg|apply IH].
Qed.

Lemma fill_column_step self df n col :
  fill_column (self, df, n) col
  = ({| cleaning_log := cleaning_log self ++ fill_entry df col;
        quality_report := quality_report self;
        original_shape := original_shape self;
        cleaned_shape := cleaned_shape self |},
     map_column col (fillna (fill_value col)) df,
     n + isnull_sum (column df col)).
Proof.
  unfold fill_column, fill_entry, fill_value. cbv zeta.
  destruct self as [log q o cl]. unfold log_action. cbn [cleaning_log
    quality_report original_shape cleaned_shape].
  case_bool_decide; case_bool_decide; by rewrite ?app_nil_r.
Qed.

Lemma fill_fold_log (df0 : DataFrame) todo done self df n :
  columns df = columns df0 →
  rows df = pos_map (filled_in done) (columns df0) <$> rows df0 →
  NoDup (done ++ todo) →
  let st := foldl fill_column (self, df, n) todo in
  cleaning_log (fst (fst st))
  = cleaning_log self ++ mjoin (fill_entry df0 <$> todo) ∧
  snd st = n + sum_list_with (λ c, isnull_sum (column df0 c)) todo.
Proof.
  revert done self df n. induction todo as [|col todo IH];
    intros done self df n Hcols Hrows Hnd; cbn [foldl]; cbv zeta.
  - cbn. by rewrite app_nil_r, Nat.add_0_r.
  - rewrite fill_column_step.
    assert (Hcol : column df col = column df0 col).
    { unfold column. rewrite Hcols, Hrows, <- list_fmap_compose.
      apply list_fmap_ext. intros i row _. cbn.
      apply cell_at_pos_map. intros x. unfold filled_in.
      rewrite bool_decide_eq_false_2; [done|].
      intros Hin. apply NoDup_app in Hnd as (_ & Hdis & _).
      apply (Hdis col Hin). left. }
    assert (Hentry : fill_entry df col = fill_entry df0 col).
    { unfold fill_entry. by rewrite Hcol. }
    rewrite Hcol, Hentry.
    match goal with
    | |- context [foldl fill_column (?s, ?d, ?m) todo] =>
        specialize (IH (done ++ [col]) s d m)
    end.
    rewrite <- app_assoc in IH. cbv zeta in IH.
    destruct IH as [IHlog IHn]; [done| |done|].
    { unfold map_column; cbn [rows columns].
      rewrite Hcols, Hrows, <- list_fmap_compose.
      apply list_fmap_ext. intros i row _. apply fill_frame_step. }
    rewrite IHlog, IHn. cbn [cleaning_log]. rewrite fmap_cons.
    cbn [mjoin list_join sum_list_with]. rewrite <- app_assoc. split; [done|lia].
Qed.

Lemma isnull_sum_cons x l :
  isnull_sum (x :: l) = (if decide (x = None) then 1 else 0) + isnull_sum l.
Proof.
  unfold isnull_sum. destruct (decide (x = None)) as [Hx|Hx].
  - by rewrite filter_cons_True.
  - by rewrite filter_cons_False.
Qed.

Lemma sum_list_with_add {A} (f g : A → nat) (l : list A) :
  sum_list_with (λ x, f x + g x) l = sum_list_with f l + sum_list_with g l.
Proof. induction l as [|x l IH]; cbn; [done|]. rewrite IH. lia. Qed.

Lemma sum_list_with_equal {A} (f g : A → nat) (l : list A) :
  (∀ x, f x = g x) → sum_list_with f l = sum_list_with g l.
Proof. intros Hfg. induction l as [|x l IH]; cbn; [done|]. by rewrite Hfg, IH. Qed.

Lemma sum_list_with_count (h : string → cell) (cols : list string) :
  sum_list_with (λ c, if decide (h c = None) then 1 else 0) cols
  = length (filter (λ x, x = None) (h <$> cols)).
Proof.
  induction cols as [|c cols IH]; [done|]. rewrite fmap_cons. cbn [sum_list_with].
  destruct (decide (h c = None)) as [Hx|Hx].
  - rewrite filter_cons_True by done. cbn [length]. by rewrite IH.
  - rewrite filter_cons_False by done. by rewrite IH.
Qed.

(** Counting the missing cells column by column or row by row. *)
Lemma column_missing_sum (df : DataFrame) :
  NoDup (columns df) → well_formed df →
  sum_list_with (λ c, isnull_sum (column df c)) (columns df) = total_missing df.
Proof.
  intros Hnd. unfold well_formed, total_missing, column.
  generalize (columns df) Hnd. intros cols Hcols. clear Hnd.
  induction (rows df) as [|r rs IH]; intros Hwf.
  - cbn. induction cols as [|c cols IHc]; [done|].
    apply NoDup_cons in Hcols as [_ Hcols]. cbn. by apply IHc.
  - apply Forall_cons in Hwf as [Hr Hwf].
    etrans.
    { apply (sum_list_with_equal _
        (λ c, (if decide (cell_at cols r c = None) then 1 else 0)
              + isnull_sum ((λ row, cell_at cols row c) <$> rs))).
      intros c. rewrite fmap_cons. apply isnull_sum_cons. }
    rewrite sum_list_with_add, IH by done.
    rewrite (sum_list_with_count (cell_at cols r)).
    rewrite MergeFacts.cell_at_reindex by done.
    cbn [mjoin list_join]. by rewrite filter_app, length_app.
Qed.

(** X8. On a frame with distinct column names and one cell per column,
    [fill_missing_values] logs, in column order, one entry for each column
    that has a missing cell, with that column's number of missing cells,
    and closes with their total, which is the number of missing cells of
    the frame. *)
Theorem fill_missing_values_log (self : DataCleaner) (df : DataFrame) :
  NoDup (columns df) → well_formed df →
  cleaning_log (fst (fill_missing_values self df))
  = cleaning_log self
    ++ mjoin (fill_entry df <$> columns df)
    ++ [fill_complete (total_missing df)].
Proof.
  intros Hnd Hwf. unfold fill_missing_values.
  pose proof (fill_fold_log df (columns df) [] self df 0 eq_refl) as H.
  cbv zeta in H.
  destruct (foldl fill_column (self, df, 0) (columns df)) as [[s d] n].
  cbn [fst snd] in *. destruct H as [Hlog Hn]; [|done|].
  { symmetry. etrans; [|apply list_fmap_id].
    apply list_fmap_ext. intros i row _. etrans; [|apply pos_map_id].
    apply pos_map_ext. intros c x _. unfold filled_in.
    rewrite bool_decide_eq_false_2; [done|apply not_elem_of_nil]. }
  cbn [cleaning_log log_action]. rewrite Hlog, Hn, column_missing_sum by done.
  by rewrite <- app_assoc.
Qed.

Lemma fill_missing_values_log_witness :
  cleaning_log (fst (fill_missing_values init sample_frame))
  = cleaning_log init
    ++ mjoin (fill_entry sample_frame <$> columns sample_frame)
    ++ [fill_complete (total_missing sample_frame)].
Proof.
  apply (fill_missing_values_log init sample_frame).
  - apply (bool_decide_unpack _). vm_compute. exact I.
  - repeat constructor.
Defined.

End MissingValueFacts.

(** ** The merge step: counts and precedence *)

Module MergeCounts.
Import Py Pd PdFacts Cleaning CleaningFacts Merge MergeFacts CleaningInvariants.

Lemma merge_rows_keep_first cols (all : list (list cell)) :
  drop_duplicates (subset_key cols merge_key) all
  = keep_first (student_year cols) all.
Proof.
  rewrite drop_duplicates_keep_first. apply keep_first_ext.
  intros x y. apply subset_key_pair.
Qed.

Lemma merge_dataframes_run (frames : list DataFrame) :
  frames ≠ [] →
  let cols := merged_columns frames in
  let all := concatenated_rows frames in
  merge_dataframes frames
  = if bool_decide ("MASKED_ID" ∈ cols) && bool_decide ("ACADEMIC_YEAR" ∈ cols)
    then
      let kept := keep_first (student_year cols) all in
      Ok ({| columns := cols; rows := kept |},
          if bool_decide (length all ≠ length kept)
          then Some (Z.of_nat (length all) - Z.of_nat (length kept))%Z
          else None)
    else Ok ({| columns := cols; rows := all |}, None).
Proof.
  intros Hne. cbv zeta. unfold merge_dataframes.
  rewrite (pd_concat_nonempty frames Hne). cbn [bind columns rows].
  rewrite merge_rows_keep_first.
  destruct (_ && _); [|done]. by case_bool_decide.
Qed.




(** X10. Files on the same columns: the first file takes precedence. The
    merged frame is the first file without its own repeated (student,
    year) pairs, followed by those rows of the later files whose pair does
    not occur in the first file, again one per pair. *)
Theorem merge_first_file_wins (cs : list string) (first : DataFrame)
    (later : list DataFrame) :
  NoDup cs → "MASKED_ID" ∈ cs → "ACADEMIC_YEAR" ∈ cs →
  Forall (λ df, columns df = cs ∧ well_formed df) (first :: later) →
  ∃ merged logged,
    merge_dataframes (first :: later) = Ok (merged, logged) ∧
    columns merged = cs ∧
    rows merged
    = keep_first (student_year cs) (rows first)
      ++ filter (λ row, student_year cs row ∉ student_year cs <$> rows first)
           (keep_first (student_year cs) (mjoin (rows <$> later))).
Proof.
  intros Hnd H1 H2 Hall.
  destruct (concatenated_rows_same cs (first :: later) Hnd) as [Hcols Hrows];
    [done|done|].
  rewrite merge_dataframes_run by done. cbv zeta.
  rewrite Hcols, Hrows, !bool_decide_eq_true_2 by done. cbn [andb].
  eexists _, _. split; [reflexivity|]. cbn [columns rows].
  split; [done|]. rewrite fmap_cons. cbn [mjoin list_join].
  apply keep_first_app.
Qed.

Lemma merge_first_file_wins_witness :
  ∃ merged logged,
    merge_dataframes [file_a; file_b] = Ok (merged, logged) ∧
    columns merged = ["MASKED_ID"; "ACADEMIC_YEAR"; "FACULTY_DESCR"] ∧
    rows merged
    = keep_first
        (student_year ["MASKED_ID"; "ACADEMIC_YEAR"; "FACULTY_DESCR"])
        (rows file_a)
      ++ filter (λ row,
                   student_year ["MASKED_ID"; "ACADEMIC_YEAR"; "FACULTY_DESCR"] row
                   ∉ student_year ["MASKED_ID"; "ACADEMIC_YEAR"; "FACULTY_DESCR"]
                       <$> rows file_a)
           (keep_first
              (student_year ["MASKED_ID"; "ACADEMIC_YEAR"; "FACULTY_DESCR"])
              (mjoin (rows <$> [file_b]))).
Proof.
  apply (merge_first_file_wins ["MASKED_ID"; "ACADEMIC_YEAR"; "FACULTY_DESCR"]
           file_a [file_b]).
  - apply (bool_decide_unpack _). vm_compute. exact I.
  - apply (bool_decide_unpack _). vm_compute. exact I.
  - apply (bool_decide_unpack _). vm_compute. exact I.
  - repeat constructor.
Defined.

End MergeCounts.

(** ** The two academic-level classifiers *)

Module ClassifierFacts.
Import Py Pd PdFacts Visualization VisualizationFacts StringFacts.

Lemma any_in_elem (p : string) (ps : list string) (s : string) :
  p ∈ ps → contains p s = true → any_in ps s = true.
Proof.
  intros Hp Hc. unfold any_in. induction ps as [|q ps IH].
  - by apply elem_of_nil in Hp.
  - cbn [existsb]. apply elem_of_cons in Hp as [->|Hp].
    + by rewrite Hc.
    + rewrite IH by done. apply orb_true_r.
Qed.

(** A text that contains [a +:+ p +:+ b] contains [p]. *)
Lemma contains_part (a p b s : string) :
  contains (a +:+ p +:+ b) s = true → contains p s = true.
Proof.
  rewrite !contains_append. intros (u & v & ->).
  exists (u +:+ a), (b +:+ v). by rewrite !append_assoc.
Qed.

(** The classifier of table 3 reads its argument through upper-casing and
    stripping only. *)
Lemma determine_academic_level_normalized (a b : string) :
  normalized a = normalized b →
  determine_academic_level (Some a) = determine_academic_level (Some b).
Proof.
  unfold normalized, determine_academic_level. cbv zeta. by intros ->.
Qed.

(** X11. The classifier of table 3 ignores letter case and white space
    around the code. *)
Theorem determine_academic_level_insensitive (code : string) :
  determine_academic_level (Some (upper code)) = determine_academic_level (Some code) ∧
  determine_academic_level (Some (strip code)) = determine_academic_level (Some code).
Proof.
  split; apply determine_academic_level_normalized; unfold normalized.
  - by rewrite upper_upper.
  - by rewrite upper_strip, strip_strip.
Qed.

(** The rules of the classifier of table 3 that can change a result. *)
Definition effective_rules (c : string) : string :=
  (if contains "NON-AWARD" c || contains "00" c then "Non-Award"
   else if contains "CDEV" c then "Undergraduate"
   else if contains "PHD" c || contains "RES" c then "Research"
   else if any_in ["90"; "91"; "92"; "93"; "94"; "95"; "96"; "97"; "98"; "99"] c
           || any_in ["MAST"; "GRAD"; "PG"] c
   then "Postgraduate"
   else "Undergraduate")%string.

Lemma level_effective_rules (code : string) :
  determine_academic_level (Some code) = effective_rules (normalized code).
Proof.
  unfold effective_rules, determine_academic_level. fold (normalized code).
  generalize (normalized code). intros c.
  rewrite any_in_0000_00.
  destruct (contains "NON-AWARD" c || contains "00" c); [done|].
  destruct (contains "CDEV" c); [done|].
  assert (Hres : contains "RESEARCH" c = true → contains "RES" c = true).
  { apply (contains_part "" "RES" "EARCH"). }
  assert (H3 : any_in ["PHD"; "RESEARCH"; "RES"] c
               || any_in ["80"; "90"] c && contains "RES" c
               = contains "PHD" c || contains "RES" c).
  { unfold any_in at 1. cbn [existsb].
    destruct (contains "PHD" c), (contains "RESEARCH" c) eqn:Hr,
      (contains "RES" c), (any_in ["80"; "90"] c); try reflexivity;
      by specialize (Hres eq_refl). }
  rewrite H3. destruct (contains "PHD" c || contains "RES" c); [done|].
  match goal with |- (if ?b then _ else _) = _ => destruct b end; [done|].
  by match goal with |- (if ?b then _ else _) = _ => destruct b end.
Qed.

(** X12. The classifier of table 3 is this shorter decision list: the
    tests on "0000" and "RESEARCH", the test of "80"/"90" together with
    "RES", and the whole undergraduate rule never change a result. *)
Theorem determine_academic_level_decision_list (code : string) :
  let c := normalized code in
  determine_academic_level (Some code)
  = (if contains "NON-AWARD" c || contains "00" c then "Non-Award"
     else if contains "CDEV" c then "Undergraduate"
     else if contains "PHD" c || contains "RES" c then "Research"
     else if any_in ["90"; "91"; "92"; "93"; "94"; "95"; "96"; "97"; "98"; "99"] c
             || any_in ["MAST"; "GRAD"; "PG"] c
     then "Postgraduate"
     else "Undergraduate")%string.
Proof. apply level_effective_rules. Qed.

(** The classifier of table 3 knows four levels. *)
Lemma determine_academic_level_range (code : option string) :
  determine_academic_level code ∈ preferred_level_order.
Proof.
  destruct code as [code|].
  - rewrite level_effective_rules. unfold effective_rules.
    unfold preferred_level_order.
    repeat match goal with
           | |- context [if ?b then _ else _] => destruct b
           end; set_solver.
  - cbn. unfold preferred_level_order. set_solver.
Qed.

(** *** The classifier of the chart against the classifier of the table *)

Definition nonzero_digits : list ascii :=
  ["1"; "2"; "3"; "4"; "5"; "6"; "7"; "8"; "9"]%char.

Lemma chart_level_of_pair (d : ascii) (c : string) :
  d ∈ nonzero_digits → contains (String d "0") c = true →
  any_in ["90"; "91"; "92"; "93"; "94"; "95"; "96"; "97"; "98"; "99"] c
  || any_in ["10"; "20"; "30"; "40"; "50"; "60"; "70"; "80"] c = true.
Proof.
  intros Hd Hc. unfold nonzero_digits in Hd.
  apply orb_true_iff.
  repeat (apply elem_of_cons in Hd as [->|Hd];
          [first [ right; eapply any_in_elem; [|exact Hc]; solve [repeat constructor]
                 | left; eapply any_in_elem; [|exact Hc]; solve [repeat constructor] ]|]).
  by apply elem_of_nil in Hd.
Qed.

(** X13. The chart drawn for table 3 uses another classifier. A code
    whose text has a non-zero digit followed by "00" (every catalogue
    number x000, xy00 or x00y) is 'Non-Award' for table 3 and
    'Postgraduate' or 'Undergraduate' for the chart; a missing code is
    'Undergraduate' for the table and 'Unknown' for the chart. *)
Theorem chart_classifier_differs (code : string) (d : ascii) :
  d ∈ nonzero_digits →
  contains (String d "00") (upper code) = true →
  determine_academic_level (Some code) = "Non-Award"%string ∧
  (TableVisualizations.determine_academic_level (Some code) = "Postgraduate"%string
   ∨ TableVisualizations.determine_academic_level (Some code)
     = "Undergraduate"%string) ∧
  determine_academic_level None ≠ TableVisualizations.determine_academic_level None.
Proof.
  intros Hd Hc. split; [|split; [|done]].
  - rewrite level_effective_rules. unfold effective_rules.
    assert (H00 : contains "00" (normalized code) = true).
    { unfold normalized. rewrite contains_strip; [|done|done|done].
      apply (contains_part (String d "") "00" ""). by rewrite append_nil_r. }
    by rewrite H00, orb_true_r.
  - unfold TableVisualizations.determine_academic_level. cbv zeta.
    assert (Hd0 : contains (String d "0") (upper code) = true).
    { apply (contains_part "" (String d "0") "0"). exact Hc. }
    pose proof (chart_level_of_pair d (upper code) Hd Hd0) as Hpair.
    destruct (any_in ["90"; "91"; "92"; "93"; "94"; "95"; "96"; "97"; "98"; "99"]
                (upper code)); [by left|].
    cbn [orb] in Hpair. rewrite Hpair. by right.
Qed.

Lemma chart_classifier_differs_witness :
  determine_academic_level (Some "COMP3000"%string) = "Non-Award"%string ∧
  (TableVisualizations.determine_academic_level (Some "COMP3000"%string)
   = "Postgraduate"%string
   ∨ TableVisualizations.determine_academic_level (Some "COMP3000"%string)
     = "Undergraduate"%string) ∧
  determine_academic_level None ≠ TableVisualizations.determine_academic_level None.
Proof.
  apply (chart_classifier_differs "COMP3000" "3").
  - apply (bool_decide_unpack _). vm_compute. exact I.
  - vm_compute. reflexivity.
Defined.

End ClassifierFacts.

(** ** Further properties of the three tables *)

Module TableFacts.
Import Py Pd PdFacts Visualization VisualizationFacts StringFacts ClassifierFacts.

(** *** The order of the faculty rows *)

Lemma str_le_le (s t : string) : str_le s t ↔ strings.String.le s t.
Proof. unfold str_le, strings.String.le. by rewrite Is_true_true. Qed.

#[local] Instance str_le_total : Total str_le.
Proof. intros s t. unfold str_le. apply String.leb_total. Qed.

#[local] Instance str_le_transitive : Transitive str_le.
Proof.
  intros s t u. rewrite !str_le_le. apply (transitivity (R:=strings.String.le)).
Qed.


(** *** Table 1 *)







End TableFacts.

(** ** Table 3: levels, subtotals, and its agreement with table 1 *)

Module DemographicsFacts.
Import Py Pd PdFacts Visualization VisualizationFacts StringFacts ClassifierFacts
  TableFacts.


(** *** The levels of the table *)

Lemma table_levels_preferred df :
  table_levels df
  = filter (λ level, level ∈ ACADEMIC_LEVEL <$> records df) preferred_level_order.
Proof.
  unfold table_levels. cbv zeta.
  match goal with
  | |- context [elements ?s] => set (with_data := s)
  end.
  assert (Hin : ∀ level,
            level ∈ with_data ↔ level ∈ ACADEMIC_LEVEL <$> records df).
  { intros level. unfold with_data.
    rewrite elem_of_list_to_set, list_elem_of_filter, elem_of_unique.
    rewrite <- list_fmap_compose.
    change (determine_academic_level ∘ COURSE_CODE) with ACADEMIC_LEVEL.
    split; [by intros [_ ?]|]. intros Hl. split; [|done].
    apply list_elem_of_fmap in Hl as (r & -> & Hr). intros Hnil.
    assert (Hrin : r ∈ of_level (ACADEMIC_LEVEL r) (records df))
      by (by apply list_elem_of_filter).
    rewrite Hnil in Hrin. by apply elem_of_nil in Hrin. }
  assert (Hrest : filter (λ level, level ∉ preferred_level_order)
                    (elements with_data) = []).
  { destruct (filter _ (elements with_data)) as [|x xs] eqn:Hf; [done|].
    assert (Hx : x ∈ filter (λ level, level ∉ preferred_level_order)
                   (elements with_data)) by (rewrite Hf; left).
    apply list_elem_of_filter in Hx as [Hno Hx].
    apply elem_of_elements, Hin, list_elem_of_fmap in Hx as (r & -> & _).
    exfalso. apply Hno. apply determine_academic_level_range. }
  rewrite Hrest. change (sorted_str []) with (@nil string). rewrite app_nil_r.
  apply list_filter_iff. exact Hin.
Qed.


(** X15. The levels table 3 reports are the levels, among the four the
    classifier knows, that some record of the data has, in the fixed order
    Non-Award, Postgraduate, Undergraduate, Research: the branch that
    appends other levels in alphabetical order never contributes. *)
Theorem student_count_levels (df : DataFrame) (t : ComparisonTable) :
  generate_distinct_student_count_table df = Some t →
  ∃ levels,
    levels_included (summary t) = Some levels ∧
    levels `sublist_of` ["Non-Award"; "Postgraduate"; "Undergraduate"; "Research"] ∧
    ∀ level, level ∈ levels
             ↔ ∃ r, r ∈ records df ∧ determine_academic_level (COURSE_CODE r) = level.
Proof.
  intros Ht.
  destruct (student_count_cases df) as [Hn|(y1 & y2 & _ & Hs)]; [congruence|].
  rewrite Hs in Ht. injection Ht as <-.
  exists (table_levels df). split; [done|].
  rewrite table_levels_preferred. split; [apply sublist_filter|].
  intros level. rewrite list_elem_of_filter, list_elem_of_fmap. split.
  - intros [(r & -> & Hr) _]. by exists r.
  - intros (r & Hr & <-). split; [by exists r|].
    apply determine_academic_level_range.
Qed.

Lemma student_count_levels_witness :
  ∃ levels,
    levels_included (summary two_faculties_demographics) = Some levels ∧
    levels `sublist_of` ["Non-Award"; "Postgraduate"; "Undergraduate"; "Research"] ∧
    ∀ level, level ∈ levels
             ↔ ∃ r, r ∈ records two_faculties
                    ∧ determine_academic_level (COURSE_CODE r) = level.
Proof.
  apply (student_count_levels two_faculties two_faculties_demographics).
  vm_compute. reflexivity.
Defined.

(** *** The subtotal of a faculty *)










(** *** Table 1 inside table 3 *)




End DemographicsFacts.

(** ** Which tables are produced *)

Module AllTablesFacts.
Import Py Pd PdFacts Visualization VisualizationFacts StringFacts TableFacts.






End AllTablesFacts.

(** ** Table 2 against table 1, and the latest year *)

Module TermFacts.
Import Py Pd PdFacts Visualization VisualizationFacts StringFacts TableFacts
  DemographicsFacts.









(** *** The latest year *)





End TermFacts.
